(** * AquaSafe Pro water quality classifier (app.py): threshold rules,
      input controls and the classification step.

    Numeric model.  The four float readings of app.py are Python floats,
    and a slider only ever yields finite ones.  Every finite binary64 value
    is a rational, and every threshold the script compares against (6.5,
    8.5, 4.5, 5.5, 9.5, 30, 40, 5, 20, 6, 3) is exactly representable, so a
    Python comparison of a reading with a threshold is the comparison of
    the two rationals.  The readings are therefore [Q]; a statement proved
    for all rationals holds for all finite floats.  Conductivity comes from
    an integer slider and is a [Z].  Class probabilities are the rationals
    the floats stand for.  The one float operation whose rounding shows,
    the product [max(prediction_proba) * 100], is the exact product rounded
    by [b64] to the nearest binary64 value, ties to even, subnormals
    included.  Overflow is outside the model: a product of magnitude 2^1024
    or more, which Python turns into an infinity, does not arise from
    probabilities.  The format [.1f] of the verdict panel rounds the exact
    value of the float to one decimal, ties to even. *)

From Stdlib Require Import QArith Qround Qpower ZArith List String Bool.
From Stdlib Require Import Lia Lqa.
Import ListNotations.
Local Open Scope Q_scope.

(** ** Python comparisons on the readings *)

Definition Qlt_bool (x y : Q) : bool := negb (Qle_bool y x).

(** ** Rounding *)

(** The nearest integer, ties to the even one. *)
Definition round_half_even (x : Q) : Z :=
  let f := Qfloor x in
  let r := x - inject_Z f in
  if Qlt_bool r (1 # 2) then f
  else if Qlt_bool (1 # 2) r then (f + 1)%Z
  else if Z.even f then f else (f + 1)%Z.

(** The number printed by the format [.1f]: the value rounded to one
    decimal. *)
Definition format_1f (x : Q) : Q := round_half_even (x * 10) # 10.

Definition pow2 (e : Z) : Q := Qpower 2 e.

(** The binary exponent of a positive rational: the [e] with
    2^e <= x < 2^(e+1). *)
Definition exponent (x : Q) : Z :=
  let e0 := (Z.log2 (Qnum x) - Z.log2 (Zpos (Qden x)))%Z in
  if Qle_bool (pow2 e0) x then e0 else (e0 - 1)%Z.

(** The exponent of the last place of binary64 at [x]: 53 significant
    bits, and never below 2^-1074, the spacing of the subnormals. *)
Definition quantum (x : Q) : Z := Z.max (exponent x - 52) (-1074).

Definition round_pos (x : Q) : Q :=
  inject_Z (round_half_even (x * pow2 (- quantum x))) * pow2 (quantum x).

(** The binary64 value nearest to [x], ties to even: what a float
    operation returns for the exact result [x]. *)
Definition b64 (x : Q) : Q :=
  if Qlt_bool 0 x then round_pos x
  else if Qlt_bool x 0 then - round_pos (- x)
  else 0.

(** ** The sample *)

Record WaterSample : Type := mkSample {
  ph : Q;
  temperature : Q;
  turbidity : Q;
  dissolved_oxygen : Q;
  conductivity : Z
}.

(** ** The 'Status' column of [param_eval] (app.py, lines 139-160) *)

Section StatusColumn.
Local Open Scope string_scope.

Definition status_ph (ph : Q) : string :=
  if Qle_bool 6.5 ph && Qle_bool ph 8.5 then "✅ Optimal"
  else if Qlt_bool 8.5 ph then "⚠️ Alkaline"
  else if Qle_bool 4.5 ph then "⚠️ Acidic"
  else "❌ Dangerous".

Definition status_temperature (temperature : Q) : string :=
  if Qlt_bool temperature 30 then "✅ Normal"
  else if Qlt_bool temperature 40 then "⚠️ Elevated"
  else "❌ Extreme".

Definition status_turbidity (turbidity : Q) : string :=
  if Qlt_bool turbidity 5 then "✅ Clear"
  else if Qlt_bool turbidity 20 then "⚠️ Cloudy"
  else "❌ Very Turbid".

Definition status_dissolved_oxygen (dissolved_oxygen : Q) : string :=
  if Qle_bool 6 dissolved_oxygen then "✅ Healthy"
  else if Qle_bool 3 dissolved_oxygen then "⚠️ Low"
  else "❌ Hypoxic".

Definition status_conductivity (conductivity : Z) : string :=
  if (conductivity <? 1000)%Z then "✅ Normal"
  else if (conductivity <? 1500)%Z then "⚠️ High"
  else "❌ Very High".

(** ** The 'Health Impact' column (app.py, lines 161-181) *)

Definition impact_ph (ph : Q) : string :=
  if Qle_bool 6.5 ph && Qle_bool ph 8.5 then "Ideal for drinking"
  else if (Qlt_bool 8.5 ph && Qle_bool ph 9.5)
          || (Qle_bool 5.5 ph && Qlt_bool ph 6.5) then "May cause irritation"
  else "Harmful to health".

Definition impact_temperature (temperature : Q) : string :=
  if Qlt_bool temperature 30 then "No direct impact"
  else if Qlt_bool temperature 40 then "Affects taste"
  else "Risk of scalding".

Definition impact_turbidity (turbidity : Q) : string :=
  if Qlt_bool turbidity 5 then "Clear and safe"
  else if Qlt_bool turbidity 20 then "May harbor pathogens"
  else "High pathogen risk".

Definition impact_dissolved_oxygen (dissolved_oxygen : Q) : string :=
  if Qle_bool 6 dissolved_oxygen then "Supports aquatic life"
  else if Qle_bool 3 dissolved_oxygen then "Stressful for organisms"
  else "Dangerously low oxygen".

Definition impact_conductivity (conductivity : Z) : string :=
  if (conductivity <? 1000)%Z then "Normal mineral content"
  else if (conductivity <? 1500)%Z then "Elevated minerals"
  else "Very high contamination risk".

(** The three tiers of the threshold table.  A status string carries its
    tier as its leading mark: a check mark for optimal, a warning sign for
    caution, a cross for dangerous. *)

Inductive tier : Type := Optimal | Caution | Dangerous.

Definition tier_of (status : string) : option tier :=
  if String.prefix "✅" status then Some Optimal
  else if String.prefix "⚠️" status then Some Caution
  else if String.prefix "❌" status then Some Dangerous
  else None.

End StatusColumn.

(** ** The display structure built when the form is submitted *)

(** A cell of the 'Your Value' column: the bare pH reading, or a reading
    followed by its unit. *)
Inductive cell : Type :=
| Bare (v : Q)
| FloatUnit (v : Q) (unit : string)
| IntUnit (v : Z) (unit : string).

Record ParamEval : Type := mkParamEval {
  col_Parameter : list string;
  col_Your_Value : list cell;
  col_Safe_Range : list string;
  col_Status : list string;
  col_Health_Impact : list string
}.

Section Rendering.
Local Open Scope string_scope.

Definition param_eval (s : WaterSample) : ParamEval :=
  {| col_Parameter :=
       ["pH"; "Temperature"; "Turbidity"; "Dissolved Oxygen"; "Conductivity"];
     col_Your_Value :=
       [Bare (ph s); FloatUnit (temperature s) "°C";
        FloatUnit (turbidity s) " NTU";
        FloatUnit (dissolved_oxygen s) " mg/L";
        IntUnit (conductivity s) " µS/cm"];
     col_Safe_Range := ["6.5-8.5"; "< 30°C"; "< 5 NTU"; "≥ 6 mg/L"; "< 1000 µS/cm"];
     col_Status :=
       [status_ph (ph s); status_temperature (temperature s);
        status_turbidity (turbidity s);
        status_dissolved_oxygen (dissolved_oxygen s);
        status_conductivity (conductivity s)];
     col_Health_Impact :=
       [impact_ph (ph s); impact_temperature (temperature s);
        impact_turbidity (turbidity s);
        impact_dissolved_oxygen (dissolved_oxygen s);
        impact_conductivity (conductivity s)] |}.

(** The verdict panel: headline, sentence and the confidence as printed
    by [{confidence:.1f}]. *)
Record Verdict : Type := mkVerdict {
  headline : string;
  message : string;
  shown_confidence : Q
}.

Definition verdict_panel (prediction : bool) (confidence : Q) : Verdict :=
  if prediction then
    {| headline := "✅ Safe for Consumption";
       message := "This water meets WHO safety standards for human consumption.";
       shown_confidence := format_1f confidence |}
  else
    {| headline := "❌ Not Safe for Consumption";
       message := "This water does not meet WHO safety standards.";
       shown_confidence := format_1f confidence |}.

Record Metric : Type := mkMetric {
  label : string;
  shown : cell;
  delta : string;
  delta_color : string
}.

Definition safety_indicators (s : WaterSample) : list Metric :=
  let ph_ok := Qle_bool 6.5 (ph s) && Qle_bool (ph s) 8.5 in
  let do_ok := Qle_bool 6 (dissolved_oxygen s) in
  let cond_ok := (conductivity s <? 1000)%Z in
  [ {| label := "pH Level"; shown := Bare (ph s);
       delta := if ph_ok then "Optimal" else "Caution";
       delta_color := if ph_ok then "normal" else "off" |};
    {| label := "Dissolved Oxygen";
       shown := FloatUnit (dissolved_oxygen s) " mg/L";
       delta := if do_ok then "Healthy" else "Low";
       delta_color := if do_ok then "normal" else "off" |};
    {| label := "Conductivity"; shown := IntUnit (conductivity s) " µS/cm";
       delta := if cond_ok then "Normal" else "High";
       delta_color := if cond_ok then "normal" else "off" |} ].

Record Page : Type := mkPage {
  verdict : Verdict;
  eval_df : ParamEval;
  metrics : list Metric
}.

(** Lines 107-221: everything shown once a prediction is available. *)
Definition render (s : WaterSample) (prediction : bool) (confidence : Q)
  : Page :=
  {| verdict := verdict_panel prediction confidence;
     eval_df := param_eval s;
     metrics := safety_indicators s |}.

End Rendering.

(** ** Python exceptions and the script monad *)

Inductive exn : Type :=
| FileNotFoundError
| UnpicklingError
| EOFError
| IndexError
| ValueError
| AttributeError
| StreamlitAPIException
| OtherError (class_name : string).

Inductive result (A : Type) : Type :=
| Ok (a : A)
| Raise (e : exn).
Arguments Ok {A} a.
Arguments Raise {A} e.

(** A call followed by an operation on what it returned. *)
Definition and_then {A B : Type} (r : result A) (k : A -> result B)
  : result B :=
  match r with
  | Ok a => k a
  | Raise e => Raise e
  end.

(** [xs[0]] *)
Definition index0 {A : Type} (xs : list A) : result A :=
  match xs with
  | [] => Raise IndexError
  | x :: _ => Ok x
  end.

(** The builtin [max] over an iterable of floats: the first item is the
    running maximum and a later item replaces it only when strictly
    greater; an empty iterable raises ValueError. *)
Definition max_step (m x : Q) : Q := if Qlt_bool m x then x else m.

Definition py_max (xs : list Q) : result Q :=
  match xs with
  | [] => Raise ValueError
  | x :: rest => Ok (fold_left max_step rest x)
  end.

(** ** The classifier: an opaque fitted pipeline *)

(** The object the script calls [pipeline], seen through the two methods
    the script calls on it.  A data frame is its list of rows.  Each call
    either raises or returns an array: [predict] of labels, [predict_proba]
    of rows of class probabilities.  Nothing checks that the unpickled
    object is a classifier: on an object without these methods both calls
    raise AttributeError. *)
Record Pipeline : Type := mkPipeline {
  predict : list WaterSample -> result (list bool);
  predict_proba : list WaterSample -> result (list (list Q))
}.

(** An unpickled object that is no classifier at all. *)
Definition not_a_pipeline : Pipeline :=
  {| predict := fun _ => Raise AttributeError;
     predict_proba := fun _ => Raise AttributeError |}.

(** The input/output contract of a fitted classifier: both calls return,
    with one output row per input row and at least one class. *)
Definition well_shaped (p : Pipeline) : Prop :=
  forall X : list WaterSample,
    exists (labels : list bool) (rows : list (list Q)),
      predict p X = Ok labels /\
      predict_proba p X = Ok rows /\
      List.length labels = List.length X /\
      List.length rows = List.length X /\
      Forall (fun row => row <> []) rows.

(** What joblib finds at a path: a file it cannot unpickle, with the
    exception that reading it raises (of whatever class), or a pickled
    object. *)
Inductive file : Type :=
| Unreadable (e : exn)
| Pickle (p : Pipeline).

Definition disk : Type := string -> option file.

Definition joblib_load (d : disk) (path : string) : result Pipeline :=
  match d path with
  | None => Raise FileNotFoundError
  | Some (Unreadable e) => Raise e
  | Some (Pickle p) => Ok p
  end.

(** The server process: the resource cache that survives script reruns,
    and a count of how many times the body of [load_pipeline] ran. *)
Record Server : Type := mkServer {
  cache : option Pipeline;
  loads : nat
}.

Definition fresh_server : Server := {| cache := None; loads := 0 |}.

Definition Run (A : Type) : Type := Server -> result A * Server.

Definition ret {A : Type} (a : A) : Run A := fun sv => (Ok a, sv).

Definition bind {A B : Type} (c : Run A) (k : A -> Run B) : Run B :=
  fun sv =>
    match c sv with
    | (Ok a, sv') => k a sv'
    | (Raise e, sv') => (Raise e, sv')
    end.

Definition lift {A : Type} (r : result A) : Run A := fun sv => (r, sv).

Declare Scope run_scope.
Delimit Scope run_scope with run.
Notation "x <- c ;; k" := (bind c (fun x => k))
  (at level 61, c at next level, right associativity) : run_scope.

(** [@st.cache_resource]: the decorated body runs only when the cache is
    empty; a value it returns is kept, an exception is not. *)
Definition cache_resource (body : result Pipeline) : Run Pipeline :=
  fun sv =>
    match cache sv with
    | Some p => (Ok p, sv)
    | None =>
        match body with
        | Ok p => (Ok p, {| cache := Some p; loads := S (loads sv) |})
        | Raise e => (Raise e, {| cache := None; loads := S (loads sv) |})
        end
    end.

Definition model_path : string := "water_quality_model.pkl".

Definition load_pipeline (d : disk) : Run Pipeline :=
  cache_resource (joblib_load d model_path).

(** ** The input controls *)

(** What the user did with the form: for each slider, [None] when it was
    left alone and [Some k] when its handle sits [k] steps above the
    minimum; and whether the submit button was pressed. *)
Record Widgets : Type := mkWidgets {
  w_ph : option nat;
  w_temperature : option nat;
  w_turbidity : option nat;
  w_dissolved_oxygen : option nat;
  w_conductivity : option nat;
  submitted : bool
}.

(** [st.slider(label, min_value, max_value, value, step)] on floats.  The
    call is rejected when the default lies outside the range; otherwise the
    widget returns the default, or the handle position, which cannot pass
    [max_value]. *)
Definition slider (min_value max_value value step : Q) (handle : option nat)
  : result Q :=
  if Qle_bool min_value value && Qle_bool value max_value then
    match handle with
    | None => Ok value
    | Some k =>
        let v := min_value + inject_Z (Z.of_nat k) * step in
        Ok (if Qle_bool v max_value then v else max_value)
    end
  else Raise StreamlitAPIException.

(** The same call on integers. *)
Definition slider_int (min_value max_value value step : Z)
  (handle : option nat) : result Z :=
  if ((min_value <=? value) && (value <=? max_value))%Z then
    match handle with
    | None => Ok value
    | Some k =>
        let v := (min_value + Z.of_nat k * step)%Z in
        Ok (if (v <=? max_value)%Z then v else max_value)
    end
  else Raise StreamlitAPIException.

Section Script.
Local Open Scope run_scope.

(** Lines 72-89 and 98: the five sliders, packed into one sample. *)
Definition water_quality_form (w : Widgets) : Run WaterSample :=
  ph <- lift (slider 0.0 14.0 7.0 0.1 (w_ph w)) ;;
  temperature <- lift (slider 0.0 50.0 22.0 0.5 (w_temperature w)) ;;
  turbidity <- lift (slider 0.0 3.0 0.01 0.01 (w_turbidity w)) ;;
  dissolved_oxygen <-
    lift (slider 0.0 200.0 8.0 0.1 (w_dissolved_oxygen w)) ;;
  conductivity <- lift (slider_int 0 20000 350 10 (w_conductivity w)) ;;
  ret (mkSample ph temperature turbidity dissolved_oxygen conductivity).

(** Lines 98-105: the one-row data frame, the predicted label and the
    confidence. *)
Definition classify (pipeline : Pipeline) (s : WaterSample)
  : result (bool * Q) :=
  let input_data := [s] in
  match and_then (predict pipeline input_data) index0 with
  | Raise e => Raise e
  | Ok prediction =>
      match and_then (predict_proba pipeline input_data) index0 with
      | Raise e => Raise e
      | Ok prediction_proba =>
          match py_max prediction_proba with
          | Raise e => Raise e
          | Ok m =>
              let confidence := b64 (m * 100) in Ok (prediction, confidence)
          end
      end
  end.

(** One run of app.py from top to bottom.  The result is [None] while
    the form has not been submitted. *)
Definition script (d : disk) (w : Widgets) : Run (option Page) :=
  pipeline <- load_pipeline d ;;
  s <- water_quality_form w ;;
  if submitted w then
    r <- lift (classify pipeline s) ;;
    ret (Some (render s (fst r) (snd r)))
  else ret None.

End Script.

(** A session: the script reruns once per interaction, on the same
    server. *)
Fixpoint session (d : disk) (ws : list Widgets) (sv : Server)
  : list (result (option Page)) * Server :=
  match ws with
  | [] => ([], sv)
  | w :: ws' =>
      let (r, sv') := script d w sv in
      let (rs, sv'') := session d ws' sv' in
      (r :: rs, sv'')
  end.

(** ** Reading the detail table *)

Fixpoint lookup_row (name : string) (rows : list (string * string))
  : option string :=
  match rows with
  | [] => None
  | (k, v) :: rows' => if String.eqb k name then Some v else lookup_row name rows'
  end.

(** The 'Status' cell of the row whose 'Parameter' cell is [name]. *)
Definition status_of (pg : Page) (name : string) : option string :=
  lookup_row name
    (combine (col_Parameter (eval_df pg)) (col_Status (eval_df pg))).

(** The 'Health Impact' cell of that row. *)
Definition impact_of (pg : Page) (name : string) : option string :=
  lookup_row name
    (combine (col_Parameter (eval_df pg)) (col_Health_Impact (eval_df pg))).

Definition tier_of_row (pg : Page) (name : string) : option tier :=
  match status_of pg name with
  | Some st => tier_of st
  | None => None
  end.

(** A stub classifier: the same label and the same probability row for
    every input row. *)
Definition constant_pipeline (label : bool) (row : list Q) : Pipeline :=
  {| predict := fun X => Ok (map (fun _ => label) X);
     predict_proba := fun X => Ok (map (fun _ => row) X) |}.

(** A disk holding at most the model artifact. *)
Definition disk_with (artifact : option file) : disk :=
  fun path => if String.eqb path model_path then artifact else None.

(** The form as it first appears, with or without a press on submit. *)
Definition untouched (submit : bool) : Widgets :=
  {| w_ph := None; w_temperature := None; w_turbidity := None;
     w_dissolved_oxygen := None; w_conductivity := None;
     submitted := submit |}.

(** What a run shows once the pipeline and the sample are at hand: nothing
    but the form while it is not submitted, otherwise the rendering of the
    classification, or the exception the classification raised. *)
Definition run_result (p : Pipeline) (w : Widgets)
  (s : WaterSample) : result (option Page) :=
  if submitted w then
    match classify p s with
    | Ok r => Ok (Some (render s (fst r) (snd r)))
    | Raise e => Raise e
    end
  else Ok None.

(** The outcome of a run that has the pipeline [p]. *)
Definition shows (p : Pipeline) (w : Widgets)
  (r : result (option Page)) : Prop :=
  exists s, fst (water_quality_form w fresh_server) = Ok s /\
            r = run_result p w s.

(** What one run of the script serves. *)
Definition served (w : Widgets) (r : result (option Page)) : Prop :=
  exists pg, r = Ok pg /\ (submitted w = true <-> pg <> None).

(** ** The 'Parameter Ranges' tab (app.py, lines 275-283) *)

(** The [ranges] frame, column by column; [None] is Python's None. *)
Record Ranges : Type := mkRanges {
  rg_Parameter : list string;
  rg_Min : list Z;
  rg_Max : list Z;
  rg_Safe_Min : list (option Q);
  rg_Safe_Max : list (option Q)
}.

Definition ranges : Ranges :=
  {| rg_Parameter :=
       ["pH"; "Temperature"; "Turbidity"; "Dissolved Oxygen"; "Conductivity"]%string;
     rg_Min := [0; 0; 0; 0; 0]%Z;
     rg_Max := [14; 50; 100; 20; 2000]%Z;
     rg_Safe_Min := [Some 6.5; None; None; Some 6; None];
     rg_Safe_Max := [Some 8.5; Some 30; Some 5; None; Some 1000] |}.

Fixpoint lookup {A : Type} (name : string) (rows : list (string * A))
  : option A :=
  match rows with
  | [] => None
  | (k, v) :: rows' => if String.eqb k name then Some v else lookup name rows'
  end.

(** The 'Safe Min' and 'Safe Max' cells of the row of [name]. *)
Definition safe_bounds (name : string) : option (option Q * option Q) :=
  lookup name
    (combine (rg_Parameter ranges)
       (combine (rg_Safe_Min ranges) (rg_Safe_Max ranges))).

(** The data of the bar chart, [ranges.set_index('Parameter')[['Min', 'Max']]]:
    the 'Min' and 'Max' cells of the row of [name]. *)
Definition chart_range (name : string) : option (Z * Z) :=
  lookup name
    (combine (rg_Parameter ranges) (combine (rg_Min ranges) (rg_Max ranges))).

(** The number behind a 'Your Value' cell. *)
Definition cell_value (c : cell) : Q :=
  match c with
  | Bare v => v
  | FloatUnit v _ => v
  | IntUnit z _ => inject_Z z
  end.

(** The reading shown in the 'Your Value' cell of the row of [name]. *)
Definition value_of (pg : Page) (name : string) : option Q :=
  match lookup name
          (combine (col_Parameter (eval_df pg)) (col_Your_Value (eval_df pg)))
  with
  | Some c => Some (cell_value c)
  | None => None
  end.

(** The summary metric with a given label. *)
Fixpoint find_metric (name : string) (ms : list Metric) : option Metric :=
  match ms with
  | [] => None
  | m :: ms' => if String.eqb (label m) name then Some m else find_metric name ms'
  end.

Definition metric_of (pg : Page) (name : string) : option Metric :=
  find_metric name (metrics pg).

Definition at_least (lo : option Q) (v : Q) : Prop :=
  match lo with Some l => l <= v | None => True end.

Definition at_most (hi : option Q) (v : Q) : Prop :=
  match hi with Some h => v <= h | None => True end.

Definition above (lo : option Q) (v : Q) : Prop :=
  match lo with Some l => l < v | None => True end.

Definition below (hi : option Q) (v : Q) : Prop :=
  match hi with Some h => v < h | None => True end.

(** * Properties *)

(** ** Comparisons as propositions *)

Lemma Qlt_bool_iff (x y : Q) : Qlt_bool x y = true <-> x < y.
Proof.
  unfold Qlt_bool. rewrite negb_true_iff.
  split; intro H.
  - apply Qnot_le_lt. intro L. apply Qle_bool_iff in L. congruence.
  - destruct (Qle_bool y x) eqn:E; [|reflexivity].
    apply Qle_bool_iff in E. lra.
Qed.

Lemma Qlt_bool_false_iff (x y : Q) : Qlt_bool x y = false <-> y <= x.
Proof.
  unfold Qlt_bool. rewrite negb_false_iff. apply Qle_bool_iff.
Qed.

Lemma Qle_bool_false_iff (x y : Q) : Qle_bool x y = false <-> y < x.
Proof.
  rewrite <- Qlt_bool_iff. unfold Qlt_bool.
  destruct (Qle_bool x y); simpl; intuition congruence.
Qed.

Ltac cmp_cases :=
  repeat match goal with
  | |- context [Qlt_bool ?a ?b] =>
      let E := fresh "E" in
      destruct (Qlt_bool a b) eqn:E;
      [apply Qlt_bool_iff in E | apply Qlt_bool_false_iff in E]
  | |- context [Qle_bool ?a ?b] =>
      let E := fresh "E" in
      destruct (Qle_bool a b) eqn:E;
      [apply Qle_bool_iff in E | apply Qle_bool_false_iff in E]
  | |- context [(?a <? ?b)%Z] =>
      let E := fresh "E" in
      destruct (Z.ltb_spec a b) as [E|E]
  end.

Ltac band :=
  cmp_cases; simpl;
  repeat split; intros;
  try reflexivity; try discriminate; try lra; try lia.

Local Open Scope string_scope.

Lemma status_ph_bands (ph : Q) :
  (status_ph ph = "✅ Optimal" <-> 6.5 <= ph <= 8.5) /\
  (status_ph ph = "⚠️ Alkaline" <-> 8.5 < ph) /\
  (status_ph ph = "⚠️ Acidic" <-> 4.5 <= ph < 6.5) /\
  (status_ph ph = "❌ Dangerous" <-> ph < 4.5).
Proof. unfold status_ph. band. Qed.

Lemma impact_ph_bands (ph : Q) :
  (impact_ph ph = "Ideal for drinking" <-> 6.5 <= ph <= 8.5) /\
  (impact_ph ph = "May cause irritation" <->
     8.5 < ph <= 9.5 \/ 5.5 <= ph < 6.5) /\
  (impact_ph ph = "Harmful to health" <-> ph < 5.5 \/ 9.5 < ph).
Proof.
  unfold impact_ph. band;
    try (left; lra); try (right; lra);
    match goal with H : _ \/ _ |- _ => destruct H; lra end.
Qed.

Lemma tier_ph_bands (ph : Q) :
  (tier_of (status_ph ph) = Some Optimal <-> 6.5 <= ph <= 8.5) /\
  (tier_of (status_ph ph) = Some Caution <-> 4.5 <= ph < 6.5 \/ 8.5 < ph) /\
  (tier_of (status_ph ph) = Some Dangerous <-> ph < 4.5).
Proof.
  unfold status_ph. band;
    try (left; lra); try (right; lra);
    match goal with H : _ \/ _ |- _ => destruct H; lra end.
Qed.

Lemma tier_temperature_bands (t : Q) :
  (tier_of (status_temperature t) = Some Optimal <-> t < 30) /\
  (tier_of (status_temperature t) = Some Caution <-> 30 <= t < 40) /\
  (tier_of (status_temperature t) = Some Dangerous <-> 40 <= t).
Proof. unfold status_temperature. band. Qed.

Lemma tier_turbidity_bands (t : Q) :
  (tier_of (status_turbidity t) = Some Optimal <-> t < 5) /\
  (tier_of (status_turbidity t) = Some Caution <-> 5 <= t < 20) /\
  (tier_of (status_turbidity t) = Some Dangerous <-> 20 <= t).
Proof. unfold status_turbidity. band. Qed.

Lemma tier_dissolved_oxygen_bands (o : Q) :
  (tier_of (status_dissolved_oxygen o) = Some Optimal <-> 6 <= o) /\
  (tier_of (status_dissolved_oxygen o) = Some Caution <-> 3 <= o < 6) /\
  (tier_of (status_dissolved_oxygen o) = Some Dangerous <-> o < 3).
Proof. unfold status_dissolved_oxygen. band. Qed.

Lemma tier_conductivity_bands (c : Z) :
  (tier_of (status_conductivity c) = Some Optimal <-> (c < 1000)%Z) /\
  (tier_of (status_conductivity c) = Some Caution <-> (1000 <= c < 1500)%Z) /\
  (tier_of (status_conductivity c) = Some Dangerous <-> (1500 <= c)%Z).
Proof. unfold status_conductivity. band. Qed.

(** The rows of the rendered table, by parameter name. *)
Lemma rendered_rows (s : WaterSample) (prediction : bool) (confidence : Q) :
  let pg := render s prediction confidence in
  (status_of pg "pH" = Some (status_ph (ph s)) /\
   status_of pg "Temperature" = Some (status_temperature (temperature s)) /\
   status_of pg "Turbidity" = Some (status_turbidity (turbidity s)) /\
   status_of pg "Dissolved Oxygen"
     = Some (status_dissolved_oxygen (dissolved_oxygen s)) /\
   status_of pg "Conductivity"
     = Some (status_conductivity (conductivity s))) /\
  (impact_of pg "pH" = Some (impact_ph (ph s)) /\
   impact_of pg "Temperature" = Some (impact_temperature (temperature s)) /\
   impact_of pg "Turbidity" = Some (impact_turbidity (turbidity s)) /\
   impact_of pg "Dissolved Oxygen"
     = Some (impact_dissolved_oxygen (dissolved_oxygen s)) /\
   impact_of pg "Conductivity"
     = Some (impact_conductivity (conductivity s))).
Proof. repeat split; reflexivity. Qed.

Lemma tier_of_rendered (s : WaterSample) (prediction : bool) (confidence : Q) :
  let pg := render s prediction confidence in
  tier_of_row pg "pH" = tier_of (status_ph (ph s)) /\
  tier_of_row pg "Temperature" = tier_of (status_temperature (temperature s)) /\
  tier_of_row pg "Turbidity" = tier_of (status_turbidity (turbidity s)) /\
  tier_of_row pg "Dissolved Oxygen"
    = tier_of (status_dissolved_oxygen (dissolved_oxygen s)) /\
  tier_of_row pg "Conductivity"
    = tier_of (status_conductivity (conductivity s)).
Proof. repeat split; reflexivity. Qed.

(** ** The pH row *)

(** C1.  The pH ladder of the 'Status' column has no dangerous rung on the
    alkaline side.  At pH 10, which lies above 9.5, the rendered pH row
    carries the caution status '⚠️ Alkaline', not a dangerous one, while the
    'Health Impact' cell of the same row is the harmful one. *)
Theorem ph_status_at_10_is_caution :
  let pg := render (mkSample 10 22 0.01 8 350) true 90 in
  9.5 < 10 /\
  status_of pg "pH" = Some "⚠️ Alkaline" /\
  tier_of_row pg "pH" = Some Caution /\
  tier_of_row pg "pH" <> Some Dangerous /\
  impact_of pg "pH" = Some "Harmful to health".
Proof.
  cbv zeta. repeat split; try reflexivity.
  intro H. vm_compute in H. discriminate.
Qed.

(** C9.  For every pH in [4.5, 5.5) the rendered pH row shows the caution
    status '⚠️ Acidic' next to the impact 'Harmful to health'; from 5.5 up to
    6.5 the same status stands next to 'May cause irritation'.  The acidic
    band of the impact column starts at 5.5, that of the status column at
    4.5. *)
Theorem acidic_status_harmful_impact (s : WaterSample) (prediction : bool)
  (confidence : Q) :
  let pg := render s prediction confidence in
  (4.5 <= ph s < 5.5 ->
     status_of pg "pH" = Some "⚠️ Acidic" /\
     tier_of_row pg "pH" = Some Caution /\
     impact_of pg "pH" = Some "Harmful to health") /\
  (5.5 <= ph s < 6.5 ->
     status_of pg "pH" = Some "⚠️ Acidic" /\
     impact_of pg "pH" = Some "May cause irritation").
Proof.
  cbv zeta.
  destruct (rendered_rows s prediction confidence) as [(Hs & _) (Hi & _)].
  destruct (tier_of_rendered s prediction confidence) as (Ht & _).
  rewrite Hs, Hi, Ht.
  destruct (status_ph_bands (ph s)) as (_ & _ & Hac & _).
  destruct (impact_ph_bands (ph s)) as (_ & Hirr & Hharm).
  destruct (tier_ph_bands (ph s)) as (_ & Hcau & _).
  split; intros Hb.
  - repeat split.
    + f_equal. apply Hac. lra.
    + apply Hcau. left. lra.
    + f_equal. apply Hharm. left. lra.
  - split; f_equal.
    + apply Hac. lra.
    + apply Hirr. right. lra.
Qed.

Lemma acidic_status_harmful_impact_witness :
  let pg := render (mkSample 5 22 0.01 8 350) false 75 in
  status_of pg "pH" = Some "⚠️ Acidic" /\
  tier_of_row pg "pH" = Some Caution /\
  impact_of pg "pH" = Some "Harmful to health".
Proof.
  cbv zeta.
  apply (acidic_status_harmful_impact (mkSample 5 22 0.01 8 350) false 75).
  simpl. lra.
Defined.

(** C10.  For every pH above 8.5 the rendered pH row has the caution status
    '⚠️ Alkaline', and the status '❌ Dangerous' appears exactly when the pH
    is below 4.5: no alkaline reading is ever marked dangerous. *)
Theorem alkaline_never_dangerous (s : WaterSample) (prediction : bool)
  (confidence : Q) :
  let pg := render s prediction confidence in
  (8.5 < ph s ->
     status_of pg "pH" = Some "⚠️ Alkaline" /\
     tier_of_row pg "pH" = Some Caution) /\
  (status_of pg "pH" = Some "❌ Dangerous" <-> ph s < 4.5) /\
  (tier_of_row pg "pH" = Some Dangerous <-> ph s < 4.5).
Proof.
  cbv zeta.
  destruct (rendered_rows s prediction confidence) as [(Hs & _) _].
  destruct (tier_of_rendered s prediction confidence) as (Ht & _).
  rewrite Hs, Ht.
  destruct (status_ph_bands (ph s)) as (_ & Halk & _ & Hdan).
  destruct (tier_ph_bands (ph s)) as (_ & Hcau & Htd).
  repeat split.
  - f_equal. apply Halk. assumption.
  - apply Hcau. right. assumption.
  - intro H. apply Hdan. congruence.
  - intro H. f_equal. apply Hdan. assumption.
  - apply Htd.
  - apply Htd.
Qed.

Lemma alkaline_never_dangerous_witness :
  let pg := render (mkSample 14 22 0.01 8 350) false 75 in
  status_of pg "pH" = Some "⚠️ Alkaline" /\
  tier_of_row pg "pH" = Some Caution.
Proof.
  cbv zeta.
  apply (alkaline_never_dangerous (mkSample 14 22 0.01 8 350) false 75).
  simpl. lra.
Defined.

(** ** The two scenarios *)

(** C5.  For pH 7.0, 22.0 °C, 0.01 NTU, 8.0 mg/L and 350 µS/cm every one of
    the five rendered statuses is of the optimal tier, whatever the
    classifier said. *)
Theorem scenario_all_optimal (prediction : bool) (confidence : Q) :
  let pg := render (mkSample 7.0 22.0 0.01 8.0 350) prediction confidence in
  col_Status (eval_df pg)
    = ["✅ Optimal"; "✅ Normal"; "✅ Clear"; "✅ Healthy"; "✅ Normal"] /\
  map (tier_of_row pg) (col_Parameter (eval_df pg))
    = [Some Optimal; Some Optimal; Some Optimal; Some Optimal; Some Optimal].
Proof. split; reflexivity. Qed.

(** C3.  For pH 9.0, 35.0 °C, 10.0 NTU, 2.0 mg/L and 1600 µS/cm the rendered
    statuses of pH, temperature and turbidity are of the caution tier and
    those of dissolved oxygen and conductivity of the dangerous tier. *)
Theorem scenario_mixed (prediction : bool) (confidence : Q) :
  let pg := render (mkSample 9.0 35.0 10.0 2.0 1600) prediction confidence in
  col_Status (eval_df pg)
    = ["⚠️ Alkaline"; "⚠️ Elevated"; "⚠️ Cloudy"; "❌ Hypoxic"; "❌ Very High"] /\
  tier_of_row pg "pH" = Some Caution /\
  tier_of_row pg "Temperature" = Some Caution /\
  tier_of_row pg "Turbidity" = Some Caution /\
  tier_of_row pg "Dissolved Oxygen" = Some Dangerous /\
  tier_of_row pg "Conductivity" = Some Dangerous.
Proof. repeat split; reflexivity. Qed.

(** ** The threshold table *)

(** C4.  In the rendered table, for every sample: temperature is optimal
    exactly below 30, caution in [30, 40), dangerous from 40 on; turbidity
    is optimal exactly below 5, caution in [5, 20), dangerous from 20 on;
    dissolved oxygen is optimal exactly from 6 on, caution in [3, 6),
    dangerous below 3; conductivity is optimal exactly below 1000, caution
    in [1000, 1500), dangerous from 1500 on. *)
Theorem threshold_table_non_ph (s : WaterSample) (prediction : bool)
  (confidence : Q) :
  let pg := render s prediction confidence in
  ((tier_of_row pg "Temperature" = Some Optimal <-> temperature s < 30) /\
   (tier_of_row pg "Temperature" = Some Caution <-> 30 <= temperature s < 40) /\
   (tier_of_row pg "Temperature" = Some Dangerous <-> 40 <= temperature s)) /\
  ((tier_of_row pg "Turbidity" = Some Optimal <-> turbidity s < 5) /\
   (tier_of_row pg "Turbidity" = Some Caution <-> 5 <= turbidity s < 20) /\
   (tier_of_row pg "Turbidity" = Some Dangerous <-> 20 <= turbidity s)) /\
  ((tier_of_row pg "Dissolved Oxygen" = Some Optimal
      <-> 6 <= dissolved_oxygen s) /\
   (tier_of_row pg "Dissolved Oxygen" = Some Caution
      <-> 3 <= dissolved_oxygen s < 6) /\
   (tier_of_row pg "Dissolved Oxygen" = Some Dangerous
      <-> dissolved_oxygen s < 3)) /\
  ((tier_of_row pg "Conductivity" = Some Optimal
      <-> (conductivity s < 1000)%Z) /\
   (tier_of_row pg "Conductivity" = Some Caution
      <-> (1000 <= conductivity s < 1500)%Z) /\
   (tier_of_row pg "Conductivity" = Some Dangerous
      <-> (1500 <= conductivity s)%Z)).
Proof.
  cbv zeta.
  destruct (tier_of_rendered s prediction confidence)
    as (_ & Ht & Hu & Ho & Hc).
  rewrite Ht, Hu, Ho, Hc.
  split; [apply tier_temperature_bands|].
  split; [apply tier_turbidity_bands|].
  split; [apply tier_dissolved_oxygen_bands|apply tier_conductivity_bands].
Qed.

Lemma threshold_table_non_ph_witness :
  let pg := render (mkSample 7 35 10 2 1600) true 80 in
  tier_of_row pg "Temperature" = Some Caution /\
  tier_of_row pg "Turbidity" = Some Caution /\
  tier_of_row pg "Dissolved Oxygen" = Some Dangerous /\
  tier_of_row pg "Conductivity" = Some Dangerous.
Proof.
  cbv zeta.
  destruct (threshold_table_non_ph (mkSample 7 35 10 2 1600) true 80)
    as ((_ & Ht & _) & (_ & Hu & _) & (_ & _ & Ho) & (_ & _ & Hc)).
  split; [|split; [|split]].
  - apply Ht. simpl. lra.
  - apply Hu. simpl. lra.
  - apply Ho. simpl. lra.
  - apply Hc. simpl. lia.
Defined.

(** ** Independence from the classifier *)

(** The verdict panel does follow the classifier: the two labels give
    different headlines. *)
Lemma verdict_follows_prediction (s : WaterSample) (c1 c2 : Q) :
  headline (verdict (render s true c1))
    <> headline (verdict (render s false c2)).
Proof. simpl. discriminate. Qed.

(** C7.  The 'Status' and 'Health Impact' columns depend on the sample
    only: rendering one sample with two different classification results
    gives the same two columns. *)
Theorem status_columns_ignore_classifier (s : WaterSample)
  (prediction1 prediction2 : bool) (confidence1 confidence2 : Q) :
  col_Status (eval_df (render s prediction1 confidence1))
    = col_Status (eval_df (render s prediction2 confidence2)) /\
  col_Health_Impact (eval_df (render s prediction1 confidence1))
    = col_Health_Impact (eval_df (render s prediction2 confidence2)).
Proof. split; reflexivity. Qed.

(** ** The input controls *)

Lemma slider_range (lo hi v step : Q) (h : option nat) :
  lo <= v <= hi ->
  exists x, slider lo hi v step h = Ok x /\ (0 <= step -> lo <= x <= hi).
Proof.
  intros [Hlo Hhi]. unfold slider.
  apply Qle_bool_iff in Hlo. apply Qle_bool_iff in Hhi.
  rewrite Hlo, Hhi. simpl.
  apply Qle_bool_iff in Hlo. apply Qle_bool_iff in Hhi.
  destruct h as [k|].
  - eexists. split; [reflexivity|]. intro Hstep.
    assert (Hk : 0 <= inject_Z (Z.of_nat k)).
    { change 0 with (inject_Z 0). rewrite <- Zle_Qle. lia. }
    pose proof (Qmult_le_0_compat _ _ Hk Hstep) as Hprod.
    cmp_cases; lra.
  - exists v. split; [reflexivity|]. intros _. lra.
Qed.

Lemma slider_int_range (lo hi v step : Z) (h : option nat) :
  (lo <= v <= hi)%Z ->
  exists x, slider_int lo hi v step h = Ok x /\
            (0 <= step -> lo <= x <= hi)%Z.
Proof.
  intros [Hlo Hhi]. unfold slider_int.
  apply Z.leb_le in Hlo as Hlo'. apply Z.leb_le in Hhi as Hhi'.
  rewrite Hlo', Hhi'. simpl.
  destruct h as [k|].
  - eexists. split; [reflexivity|]. intro Hstep.
    destruct (Z.leb_spec (lo + Z.of_nat k * step) hi); nia.
  - exists v. split; [reflexivity|]. lia.
Qed.

(** The form never raises and leaves the server alone; the ranges it does
    enforce are those written in the slider calls. *)
Lemma water_quality_form_total (w : Widgets) (sv : Server) :
  exists s, water_quality_form w sv = (Ok s, sv) /\
    0 <= ph s <= 14 /\ 0 <= temperature s <= 50 /\ 0 <= turbidity s <= 3 /\
    0 <= dissolved_oxygen s <= 200 /\ (0 <= conductivity s <= 20000)%Z.
Proof.
  unfold water_quality_form, bind, lift, ret.
  destruct (slider_range 0.0 14.0 7.0 0.1 (w_ph w)) as (a & -> & Ha);
    [lra|].
  destruct (slider_range 0.0 50.0 22.0 0.5 (w_temperature w)) as (b & -> & Hb);
    [lra|].
  destruct (slider_range 0.0 3.0 0.01 0.01 (w_turbidity w)) as (c & -> & Hc);
    [lra|].
  destruct (slider_range 0.0 200.0 8.0 0.1 (w_dissolved_oxygen w))
    as (o & -> & Ho); [lra|].
  destruct (slider_int_range 0 20000 350 10 (w_conductivity w))
    as (z & -> & Hz); [lia|].
  eexists. split; [reflexivity|]. simpl.
  specialize (Ha ltac:(lra)). specialize (Hb ltac:(lra)).
  specialize (Hc ltac:(lra)). specialize (Ho ltac:(lra)).
  specialize (Hz ltac:(lia)).
  repeat split; try lra; lia.
Qed.

(** C2.  The controls admit readings beyond the ranges their own help
    texts announce.  With the dissolved-oxygen handle 2000 steps up and the
    conductivity handle 2000 steps up, the submitted sample has 200 mg/L
    and 20000 µS/cm, above the 20 mg/L and 2000 µS/cm bounds. *)
Theorem form_exceeds_announced_ranges :
  let w := {| w_ph := None; w_temperature := None; w_turbidity := None;
              w_dissolved_oxygen := Some 2000%nat;
              w_conductivity := Some 2000%nat;
              submitted := true |} in
  exists s, water_quality_form w fresh_server = (Ok s, fresh_server) /\
    dissolved_oxygen s == 200 /\ ~ dissolved_oxygen s <= 20 /\
    conductivity s = 20000%Z /\ ~ (conductivity s <= 2000)%Z.
Proof.
  cbv zeta. eexists. split; [vm_compute; reflexivity|]. simpl.
  repeat split; try reflexivity.
  - intro H. vm_compute in H. apply H. reflexivity.
  - lia.
Qed.

(** ** The confidence *)

Lemma max_step_fold (rest : list Q) (x : Q) :
  let m := fold_left max_step rest x in
  x <= m /\ (forall q, In q rest -> q <= m) /\ (m = x \/ In m rest).
Proof.
  revert x. induction rest as [|y rest IH]; intro x; simpl.
  - repeat split; [lra | tauto | now left].
  - destruct (IH (max_step x y)) as (Hge & Hall & Hin).
    assert (Hstep : x <= max_step x y /\ y <= max_step x y).
    { unfold max_step. cmp_cases; lra. }
    repeat split.
    + lra.
    + intros q [<-|Hq]; [lra | now apply Hall].
    + destruct Hin as [Heq|Hin]; [|right; now right].
      rewrite Heq. unfold max_step.
      destruct (Qlt_bool x y); [right; now left | now left].
Qed.

(** The builtin [max] returns an item of a non-empty list that no item
    exceeds. *)
Lemma py_max_is_maximum (xs : list Q) :
  xs <> [] ->
  exists m, py_max xs = Ok m /\ In m xs /\ forall q, In q xs -> q <= m.
Proof.
  destruct xs as [|x rest]; [congruence|]. intros _.
  destruct (max_step_fold rest x) as (Hge & Hall & Hin).
  exists (fold_left max_step rest x). split; [reflexivity|]. split.
  - destruct Hin as [->|Hin]; [now left | now right].
  - intros q [<-|Hq]; [exact Hge | now apply Hall].
Qed.

Lemma index0_of_row {A : Type} (xs : list A) :
  List.length xs = 1%nat -> exists x, xs = [x] /\ index0 xs = Ok x.
Proof.
  destruct xs as [|x [|y rest]]; simpl; try discriminate.
  intros _. exists x. split; reflexivity.
Qed.

(** *** Rounding *)

(** Powers of two. *)
Lemma pow2_pos (e : Z) : 0 < pow2 e.
Proof. apply Qpower_0_lt. reflexivity. Qed.

Lemma pow2_plus (a b : Z) : pow2 (a + b) == pow2 a * pow2 b.
Proof. apply Qpower_plus. discriminate. Qed.

Lemma pow2_inv (q : Z) : pow2 (- q) * pow2 q == 1.
Proof.
  rewrite <- pow2_plus. replace (- q + q)%Z with 0%Z by lia. reflexivity.
Qed.

Lemma pow2_Z (n : Z) : (0 <= n)%Z -> pow2 n == inject_Z (2 ^ n).
Proof.
  intro H. unfold pow2. rewrite Zpower_Qpower by exact H. reflexivity.
Qed.

Lemma pow2_le (a b : Z) : (a <= b)%Z -> pow2 a <= pow2 b.
Proof. intro H. apply Qpower_le_compat_l; [exact H | lra]. Qed.

Lemma pow2_lt_inv (a b : Z) : pow2 a < pow2 b -> (a < b)%Z.
Proof. intro H. apply (Qpower_lt_compat_l_inv 2); [exact H | lra]. Qed.

Lemma exponent_spec (x : Q) :
  0 < x -> pow2 (exponent x) <= x < pow2 (exponent x + 1).
Proof.
  intro Hx. destruct x as [n d].
  assert (Hn : (0 < n)%Z).
  { unfold Qlt in Hx. simpl in Hx. lia. }
  unfold exponent. cbn [Qnum Qden].
  set (a := Z.log2 n). set (b := Z.log2 (Z.pos d)).
  destruct (Z.log2_spec n Hn) as [Ha1 Ha2]. fold a in Ha1, Ha2.
  destruct (Z.log2_spec (Z.pos d) ltac:(lia)) as [Hb1 Hb2].
  fold b in Hb1, Hb2.
  assert (Ha0 : (0 <= a)%Z) by apply Z.log2_nonneg.
  assert (Hb0 : (0 <= b)%Z) by apply Z.log2_nonneg.
  set (X := n # d) in *. set (D := inject_Z (Z.pos d)).
  assert (HD : 0 < D).
  { unfold D. change 0 with (inject_Z 0). rewrite <- Zlt_Qlt. lia. }
  assert (HN : X * D == inject_Z n).
  { unfold X, D. rewrite (Qmake_Qdiv n d). field.
    intro H. unfold Qeq in H. simpl in H. lia. }
  assert (A1 : pow2 a <= inject_Z n).
  { rewrite pow2_Z by lia. rewrite <- Zle_Qle. exact Ha1. }
  assert (A2 : inject_Z n < pow2 (a + 1)).
  { rewrite pow2_Z by lia. rewrite <- Zlt_Qlt.
    replace (a + 1)%Z with (Z.succ a) by lia. exact Ha2. }
  assert (B1 : pow2 b <= D).
  { unfold D. rewrite pow2_Z by lia. rewrite <- Zle_Qle. exact Hb1. }
  assert (B2 : D < pow2 (b + 1)).
  { unfold D. rewrite pow2_Z by lia. rewrite <- Zlt_Qlt.
    replace (b + 1)%Z with (Z.succ b) by lia. exact Hb2. }
  pose proof (pow2_pos b) as Pb. pose proof (pow2_pos (b + 1)) as Pb1.
  assert (U : X < pow2 (a - b + 1)).
  { pose proof (pow2_pos (a - b + 1)) as PP.
    assert (E : pow2 (a - b + 1) * pow2 b == pow2 (a + 1)).
    { rewrite <- pow2_plus.
      replace (a - b + 1 + b)%Z with (a + 1)%Z by lia. reflexivity. }
    set (P := pow2 (a - b + 1)) in *. set (B := pow2 b) in *.
    set (A := pow2 (a + 1)) in *.
    apply Qnot_le_lt. intro C. nra. }
  assert (L : pow2 (a - b - 1) < X).
  { pose proof (pow2_pos (a - b - 1)) as PP.
    assert (E : pow2 (a - b - 1) * pow2 (b + 1) == pow2 a).
    { rewrite <- pow2_plus.
      replace (a - b - 1 + (b + 1))%Z with a by lia. reflexivity. }
    set (P := pow2 (a - b - 1)) in *. set (B := pow2 (b + 1)) in *.
    set (A := pow2 a) in *.
    apply Qnot_le_lt. intro C. nra. }
  cmp_cases.
  - split; [exact E | exact U].
  - replace (a - b - 1 + 1)%Z with (a - b)%Z by lia.
    split; [lra | exact E].
Qed.

Lemma round_half_even_Z (k : Z) : round_half_even (inject_Z k) = k.
Proof.
  unfold round_half_even. rewrite Qfloor_Z.
  assert (H : Qlt_bool (inject_Z k - inject_Z k) (1 # 2) = true)
    by (apply Qlt_bool_iff; lra).
  rewrite H. reflexivity.
Qed.

Lemma round_half_even_mono (x y : Q) :
  x <= y -> (round_half_even x <= round_half_even y)%Z.
Proof.
  intro Hxy. pose proof (Qfloor_resp_le x y Hxy) as Hf.
  assert (Bx : (Qfloor x <= round_half_even x <= Qfloor x + 1)%Z).
  { unfold round_half_even. cmp_cases; try lia.
    destruct (Z.even (Qfloor x)); lia. }
  assert (By : (Qfloor y <= round_half_even y <= Qfloor y + 1)%Z).
  { unfold round_half_even. cmp_cases; try lia.
    destruct (Z.even (Qfloor y)); lia. }
  destruct (Z.eq_dec (Qfloor x) (Qfloor y)) as [Heq|Hne]; [|lia].
  clear Bx By. unfold round_half_even. rewrite <- Heq.
  cmp_cases; try lia; try lra;
    destruct (Z.even (Qfloor x)); try lia; lra.
Qed.

Lemma quantum_spec (x : Q) :
  0 < x ->
  x < pow2 (quantum x + 53) /\
  (quantum x = (-1074)%Z \/ pow2 (quantum x + 52) <= x).
Proof.
  intro Hx. destruct (exponent_spec x Hx) as [Hlo Hhi]. unfold quantum.
  destruct (Z.max_spec (exponent x - 52) (-1074)) as [[Hc ->]|[Hc ->]].
  - split; [|now left].
    eapply Qlt_le_trans; [exact Hhi | apply pow2_le; lia].
  - split.
    + replace (exponent x - 52 + 53)%Z with (exponent x + 1)%Z by lia.
      exact Hhi.
    + right. replace (exponent x - 52 + 52)%Z with (exponent x) by lia.
      exact Hlo.
Qed.

Lemma quantum_mono (x y : Q) :
  0 < x -> x <= y -> (quantum x <= quantum y)%Z.
Proof.
  intros Hx Hxy.
  destruct (exponent_spec x Hx) as [Hlo _].
  destruct (exponent_spec y ltac:(lra)) as [_ Hhi].
  assert (H : (exponent x < exponent y + 1)%Z).
  { apply pow2_lt_inv. lra. }
  unfold quantum. lia.
Qed.

Lemma round_pos_mono (x y : Q) :
  0 < x -> x <= y -> round_pos x <= round_pos y.
Proof.
  intros Hx Hxy. assert (Hy : 0 < y) by lra.
  pose proof (quantum_mono x y Hx Hxy) as Hq.
  destruct (quantum_spec x Hx) as [Hx1 _].
  destruct (quantum_spec y Hy) as [_ Hy2].
  unfold round_pos.
  set (qx := quantum x) in *. set (qy := quantum y) in *.
  destruct (Z.eq_dec qx qy) as [Heq|Hne].
  - rewrite <- Heq.
    pose proof (pow2_pos qx) as P. pose proof (pow2_pos (- qx)) as P'.
    assert (H : (round_half_even (x * pow2 (- qx))
                 <= round_half_even (y * pow2 (- qx)))%Z).
    { apply round_half_even_mono. nra. }
    rewrite Zle_Qle in H. nra.
  - assert (Hlt : (qx + 1 <= qy)%Z) by lia.
    destruct Hy2 as [Hy2|Hy2].
    { pose proof (Z.le_max_r (exponent x - 52) (-1074)).
      unfold qx, quantum in *. lia. }
    pose proof (pow2_pos qx) as Px. pose proof (pow2_pos (- qx)) as Px'.
    pose proof (pow2_pos qy) as Py. pose proof (pow2_pos (- qy)) as Py'.
    pose proof (pow2_inv qx) as Ix. pose proof (pow2_inv qy) as Iy.
    assert (Ux : (round_half_even (x * pow2 (- qx)) <= 2 ^ 53)%Z).
    { rewrite <- (round_half_even_Z (2 ^ 53)). apply round_half_even_mono.
      rewrite <- (pow2_Z 53) by lia.
      rewrite pow2_plus in Hx1.
      set (a := pow2 53) in *. set (b := pow2 qx) in *.
      set (c := pow2 (- qx)) in *. nra. }
    assert (Ly : (2 ^ 52 <= round_half_even (y * pow2 (- qy)))%Z).
    { rewrite <- (round_half_even_Z (2 ^ 52)) at 1. apply round_half_even_mono.
      rewrite <- (pow2_Z 52) by lia.
      rewrite pow2_plus in Hy2.
      set (a := pow2 52) in *. set (b := pow2 qy) in *.
      set (c := pow2 (- qy)) in *. nra. }
    rewrite Zle_Qle in Ux, Ly.
    rewrite <- (pow2_Z 53) in Ux by lia. rewrite <- (pow2_Z 52) in Ly by lia.
    assert (M : pow2 53 * pow2 qx <= pow2 52 * pow2 qy).
    { rewrite <- !pow2_plus. apply pow2_le. lia. }
    pose proof (pow2_pos 53) as P53. pose proof (pow2_pos 52) as P52.
    set (rx := inject_Z (round_half_even (x * pow2 (- qx)))) in *.
    set (ry := inject_Z (round_half_even (y * pow2 (- qy)))) in *.
    set (a := pow2 53) in *. set (b := pow2 52) in *.
    set (cx := pow2 qx) in *. set (cy := pow2 qy) in *.
    apply Qle_trans with (a * cx); [nra|].
    apply Qle_trans with (b * cy); [exact M | nra].
Qed.

Lemma round_pos_nonneg (x : Q) : 0 < x -> 0 <= round_pos x.
Proof.
  intro Hx. unfold round_pos.
  pose proof (pow2_pos (quantum x)) as P.
  pose proof (pow2_pos (- quantum x)) as P'.
  assert (H : (0 <= round_half_even (x * pow2 (- quantum x)))%Z).
  { rewrite <- (round_half_even_Z 0) at 1. apply round_half_even_mono.
    change (inject_Z 0) with 0. nra. }
  rewrite Zle_Qle in H. change (inject_Z 0) with 0 in H. nra.
Qed.

(** Rounding is monotone. *)
Lemma b64_monotone (x y : Q) : x <= y -> b64 x <= b64 y.
Proof.
  intro Hxy.
  assert (P1 : 0 < x -> round_pos x <= round_pos y)
    by (intro; apply round_pos_mono; assumption).
  assert (P2 : y < 0 -> round_pos (- y) <= round_pos (- x))
    by (intro; apply round_pos_mono; lra).
  assert (Nx : 0 < x -> 0 <= round_pos x) by apply round_pos_nonneg.
  assert (Ny : 0 < y -> 0 <= round_pos y) by apply round_pos_nonneg.
  assert (Nx' : x < 0 -> 0 <= round_pos (- x))
    by (intro; apply round_pos_nonneg; lra).
  assert (Ny' : y < 0 -> 0 <= round_pos (- y))
    by (intro; apply round_pos_nonneg; lra).
  unfold b64. cmp_cases; try lra;
    repeat match goal with
    | H : _ -> _ |- _ => first [specialize (H ltac:(lra)) | clear H]
    end; lra.
Qed.

Lemma round_half_even_compat (x y : Q) :
  x == y -> round_half_even x = round_half_even y.
Proof.
  intro H.
  assert (H1 : (round_half_even x <= round_half_even y)%Z)
    by (apply round_half_even_mono; lra).
  assert (H2 : (round_half_even y <= round_half_even x)%Z)
    by (apply round_half_even_mono; lra).
  lia.
Qed.

Lemma round_pos_integer (z : Z) :
  (0 < z <= 2 ^ 53)%Z -> round_pos (inject_Z z) == inject_Z z.
Proof.
  intros [Hz0 Hz].
  destruct (Z.eq_dec z (2 ^ 53)) as [->|Hne]; [vm_compute; reflexivity|].
  assert (Hx : 0 < inject_Z z).
  { change 0 with (inject_Z 0). rewrite <- Zlt_Qlt. exact Hz0. }
  destruct (exponent_spec (inject_Z z) Hx) as [Hlo _].
  assert (He : (exponent (inject_Z z) < 53)%Z).
  { apply pow2_lt_inv. eapply Qle_lt_trans; [exact Hlo|].
    rewrite (pow2_Z 53) by lia. rewrite <- Zlt_Qlt. lia. }
  unfold round_pos. set (q := quantum (inject_Z z)).
  assert (Hq : (q <= 0)%Z) by (unfold q, quantum; lia).
  rewrite (round_half_even_compat _ (inject_Z (z * 2 ^ (- q)))).
  - rewrite round_half_even_Z, inject_Z_mult.
    rewrite <- (pow2_Z (- q)) by lia.
    pose proof (pow2_inv q) as I.
    set (a := pow2 (- q)) in *. set (b := pow2 q) in *.
    set (c := inject_Z z).
    assert (E : c * a * b == c * (a * b)) by ring. rewrite E, I. ring.
  - rewrite inject_Z_mult, <- (pow2_Z (- q)) by lia. reflexivity.
Qed.

(** Every integer of magnitude at most 2^53 is a binary64 value. *)
Lemma b64_integer (z : Z) :
  (Z.abs z <= 2 ^ 53)%Z -> b64 (inject_Z z) == inject_Z z.
Proof.
  intros Hz. unfold b64.
  destruct (Z.lt_trichotomy z 0) as [Hneg|[->|Hpos]].
  - assert (H1 : Qlt_bool 0 (inject_Z z) = false).
    { apply Qlt_bool_false_iff. change 0 with (inject_Z 0).
      rewrite <- Zle_Qle. lia. }
    assert (H2 : Qlt_bool (inject_Z z) 0 = true).
    { apply Qlt_bool_iff. change 0 with (inject_Z 0).
      rewrite <- Zlt_Qlt. lia. }
    rewrite H1, H2.
    change (- inject_Z z) with (inject_Z (- z)).
    rewrite round_pos_integer by lia. rewrite inject_Z_opp. ring.
  - reflexivity.
  - assert (H1 : Qlt_bool 0 (inject_Z z) = true).
    { apply Qlt_bool_iff. change 0 with (inject_Z 0).
      rewrite <- Zlt_Qlt. lia. }
    rewrite H1. apply round_pos_integer. lia.
Qed.

Lemma round_half_even_error (x : Q) :
  - (1 # 2) <= inject_Z (round_half_even x) - x <= 1 # 2.
Proof.
  unfold round_half_even.
  pose proof (Qfloor_le x) as Hf. pose proof (Qlt_floor x) as Hc.
  rewrite inject_Z_plus in Hc. change (inject_Z 1) with 1 in Hc.
  cmp_cases.
  - lra.
  - rewrite inject_Z_plus. change (inject_Z 1) with 1. lra.
  - destruct (Z.even (Qfloor x)).
    + lra.
    + rewrite inject_Z_plus. change (inject_Z 1) with 1. lra.
Qed.

(** The printed confidence is a whole number of tenths within half a
    tenth of the value. *)
Lemma format_1f_error (x : Q) :
  - (1 # 20) <= format_1f x - x <= 1 # 20.
Proof.
  unfold format_1f. pose proof (round_half_even_error (x * 10)) as H.
  rewrite (Qmake_Qdiv (round_half_even (x * 10)) 10).
  change (inject_Z (Z.pos 10)) with 10.
  set (r := inject_Z (round_half_even (x * 10))) in *.
  assert (E : r / 10 == r * (1 # 10)) by (field).
  rewrite E. lra.
Qed.

(** The product in runs of the script: 0.57 * 100 is 56.99999999999999289,
    not 57. *)
Example b64_product :
  Qred (b64 (b64 0.57 * 100)) = 8022036836253695 # 140737488355328.
Proof. vm_compute. reflexivity. Qed.

(** *** The classification step *)

(** What [classify] returns on a pipeline that honours the contract. *)
Lemma classify_spec (pipeline : Pipeline) (s : WaterSample) :
  well_shaped pipeline ->
  exists (prediction : bool) (prediction_proba : list Q) (m : Q),
    predict pipeline [s] = Ok [prediction] /\
    predict_proba pipeline [s] = Ok [prediction_proba] /\
    classify pipeline s = Ok (prediction, b64 (m * 100)) /\
    In m prediction_proba /\
    (forall q, In q prediction_proba -> q <= m).
Proof.
  intro Hshape.
  destruct (Hshape [s]) as (labels & rows & Hp & Hpp & Hl & Hr & Hne).
  destruct (index0_of_row _ Hl) as (b & -> & Hb0).
  destruct (index0_of_row _ Hr) as (row & -> & Hrow0).
  apply Forall_inv in Hne.
  destruct (py_max_is_maximum row Hne) as (m & Hm & Hin & Hmax).
  exists b, row, m. unfold classify. rewrite Hp, Hpp.
  cbn [and_then index0]. rewrite Hm.
  repeat split; assumption.
Qed.

Lemma constant_pipeline_well_shaped (label : bool) (row : list Q) :
  row <> [] -> well_shaped (constant_pipeline label row).
Proof.
  intros Hrow X. do 2 eexists. simpl.
  split; [reflexivity|]. split; [reflexivity|].
  rewrite !length_map. repeat split.
  apply Forall_forall. intros r Hr. apply in_map_iff in Hr.
  destruct Hr as (_ & <- & _). exact Hrow.
Qed.

(** C6.  On a pipeline that honours the classifier contract, [classify]
    returns for every sample the predicted label together with a
    confidence that is the float product of 100 and the maximum of the
    sample's class probabilities: the binary64 rounding of 100 times an
    entry of the probability row that no entry exceeds.  When every
    probability lies in [0, 1] the confidence lies in [0, 100]. *)
Theorem classify_confidence (pipeline : Pipeline) (s : WaterSample)
  (Hshape : well_shaped pipeline) :
  exists (prediction : bool) (prediction_proba : list Q) (m : Q),
    predict pipeline [s] = Ok [prediction] /\
    predict_proba pipeline [s] = Ok [prediction_proba] /\
    classify pipeline s = Ok (prediction, b64 (m * 100)) /\
    In m prediction_proba /\
    (forall q, In q prediction_proba -> q <= m) /\
    ((forall q, In q prediction_proba -> 0 <= q <= 1) ->
       0 <= b64 (m * 100) <= 100).
Proof.
  destruct (classify_spec pipeline s Hshape)
    as (b & row & m & Hb & Hrow & Hc & Hin & Hmax).
  exists b, row, m.
  split; [exact Hb|]. split; [exact Hrow|]. split; [exact Hc|].
  split; [exact Hin|]. split; [exact Hmax|].
  intro Hunit. destruct (Hunit m Hin) as [H0 H1].
  pose proof (b64_integer 0 ltac:(vm_compute; discriminate)) as F0.
  pose proof (b64_integer 100 ltac:(vm_compute; discriminate)) as F100.
  change (inject_Z 0) with 0 in F0. change (inject_Z 100) with 100 in F100.
  assert (L0 : b64 0 <= b64 (m * 100)) by (apply b64_monotone; lra).
  assert (L100 : b64 (m * 100) <= b64 100) by (apply b64_monotone; lra).
  lra.
Qed.

Lemma classify_confidence_witness :
  exists c : Q,
    classify (constant_pipeline true [0.2; 0.8])
      (mkSample 7 22 0.01 8 350)
      = Ok (true, c) /\
    0 <= c <= 100.
Proof.
  destruct (classify_confidence (constant_pipeline true [0.2; 0.8])
              (mkSample 7 22 0.01 8 350))
    as (b & row & m & Hb & Hrow & Hc & _ & _ & Hrange).
  - apply constant_pipeline_well_shaped. discriminate.
  - simpl in Hb, Hrow. injection Hb as <-. injection Hrow as <-.
    exists (b64 (m * 100)). split; [exact Hc|].
    apply Hrange. intros q Hq. simpl in Hq.
    destruct Hq as [<-|[<-|[]]]; lra.
Defined.

(** ** Failure *)

Lemma form_sample_unique (w : Widgets) (sv sv' : Server) (s s' : WaterSample) :
  water_quality_form w sv = (Ok s, sv) ->
  water_quality_form w sv' = (Ok s', sv') -> s = s'.
Proof.
  unfold water_quality_form, bind, lift, ret.
  destruct (slider 0.0 14.0 7.0 0.1 (w_ph w)); [|discriminate].
  destruct (slider 0.0 50.0 22.0 0.5 (w_temperature w)); [|discriminate].
  destruct (slider 0.0 3.0 0.01 0.01 (w_turbidity w)); [|discriminate].
  destruct (slider 0.0 200.0 8.0 0.1 (w_dissolved_oxygen w)); [|discriminate].
  destruct (slider_int 0 20000 350 10 (w_conductivity w)); [|discriminate].
  congruence.
Qed.

(** Past the load, a run collects the sample and shows [run_result]; it
    leaves the server as it found it. *)
Lemma script_after_form (p : Pipeline) (w : Widgets)
  (sv : Server) :
  exists s,
    fst (water_quality_form w fresh_server) = Ok s /\
    bind (water_quality_form w)
      (fun s =>
         if submitted w
         then bind (lift (classify p s))
                (fun r => ret (Some (render s (fst r) (snd r))))
         else ret None) sv = (run_result p w s, sv).
Proof.
  destruct (water_quality_form_total w fresh_server) as (s0 & Hs0 & _).
  destruct (water_quality_form_total w sv) as (s & Hs & _).
  rewrite <- (form_sample_unique w fresh_server sv s0 s Hs0 Hs) in Hs.
  exists s0. split; [rewrite Hs0; reflexivity|].
  unfold bind at 1. rewrite Hs. unfold run_result.
  destruct (submitted w); [|reflexivity].
  unfold bind, lift, ret. destruct (classify p s0); reflexivity.
Qed.

Lemma run_result_served (p : Pipeline) (w : Widgets)
  (s : WaterSample) :
  well_shaped p -> served w (run_result p w s).
Proof.
  intro Hshape. unfold run_result, served.
  destruct (submitted w).
  - destruct (classify_spec p s Hshape) as (b & row & m & _ & _ & -> & _).
    eexists. split; [reflexivity|]. split; [discriminate | reflexivity].
  - exists None. split; [reflexivity|]. split; [discriminate | congruence].
Qed.

Lemma script_cached (d : disk) (w : Widgets) (sv : Server)
  (p : Pipeline) :
  cache sv = Some p ->
  exists r, script d w sv = (r, sv) /\ shows p w r.
Proof.
  intros Hc. unfold script, bind at 1, load_pipeline, cache_resource.
  rewrite Hc.
  destruct (script_after_form p w sv) as (s & Hs & ->).
  eexists. split; [reflexivity | exists s; auto].
Qed.

Lemma script_first_load (d : disk) (w : Widgets) (sv : Server)
  (p : Pipeline) :
  cache sv = None -> joblib_load d model_path = Ok p ->
  exists r,
    script d w sv = (r, {| cache := Some p; loads := S (loads sv) |}) /\
    shows p w r.
Proof.
  intros Hc Hl. unfold script, bind at 1, load_pipeline, cache_resource.
  rewrite Hc, Hl.
  destruct (script_after_form p w
              {| cache := Some p; loads := S (loads sv) |}) as (s & Hs & ->).
  eexists. split; [reflexivity | exists s; auto].
Qed.

Lemma script_load_fails (d : disk) (w : Widgets) (sv : Server)
  (e : exn) :
  cache sv = None -> joblib_load d model_path = Raise e ->
  script d w sv
  = (Raise e, {| cache := None; loads := S (loads sv) |}).
Proof.
  intros Hc Hl. unfold script, bind, load_pipeline, cache_resource.
  rewrite Hc, Hl. reflexivity.
Qed.

Lemma session_cons (d : disk) (w : Widgets) (ws : list Widgets)
  (sv : Server) :
  session d (w :: ws) sv
  = (fst (script d w sv)
       :: fst (session d ws (snd (script d w sv))),
     snd (session d ws (snd (script d w sv)))).
Proof.
  simpl. destruct (script d w sv) as [r sv']. simpl.
  destruct (session d ws sv') as [rs sv'']. reflexivity.
Qed.

Lemma session_cached (d : disk) (p : Pipeline)
  (ws : list Widgets) (sv : Server) :
  cache sv = Some p ->
  Forall2 (shows p) ws (fst (session d ws sv)) /\
  snd (session d ws sv) = sv.
Proof.
  intros Hc. induction ws as [|w ws IH].
  - split; [constructor | reflexivity].
  - rewrite session_cons.
    destruct (script_cached d w sv p Hc) as (r & -> & Hshows).
    destruct IH as (IH1 & IH2). simpl. split; [|exact IH2].
    constructor; assumption.
Qed.

Lemma session_load_fails (d : disk) (e : exn)
  (ws : list Widgets) (sv : Server) :
  cache sv = None -> joblib_load d model_path = Raise e ->
  Forall2 (fun _ r => r = Raise e) ws (fst (session d ws sv)) /\
  snd (session d ws sv)
  = {| cache := None; loads := List.length ws + loads sv |}.
Proof.
  intros Hc Hl. revert sv Hc. induction ws as [|w ws IH]; intros sv Hc.
  - split; [constructor|]. destruct sv as [c n]. simpl in *. congruence.
  - rewrite session_cons, (script_load_fails d w sv e Hc Hl). simpl.
    destruct (IH {| cache := None; loads := S (loads sv) |} eq_refl)
      as (IH1 & IH2).
    split; [constructor; [reflexivity | exact IH1]|].
    rewrite IH2. simpl. f_equal. lia.
Qed.

Lemma session_loaded (d : disk) (p : Pipeline)
  (ws : list Widgets) :
  joblib_load d model_path = Ok p ->
  Forall2 (shows p) ws (fst (session d ws fresh_server)) /\
  (ws <> [] ->
     snd (session d ws fresh_server)
     = {| cache := Some p; loads := 1 |}).
Proof.
  intro Hl. destruct ws as [|w ws].
  - split; [constructor | congruence].
  - rewrite session_cons.
    destruct (script_first_load d w fresh_server p eq_refl Hl)
      as (r & -> & Hshows).
    destruct (session_cached d p ws {| cache := Some p; loads := 1 |}
                eq_refl) as (Hrest & Hsv).
    simpl. split; [constructor; assumption | intros _; exact Hsv].
Qed.

Lemma shows_served (p : Pipeline) (ws : list Widgets)
  (rs : list (result (option Page))) :
  well_shaped p -> Forall2 (shows p) ws rs -> Forall2 served ws rs.
Proof.
  intros Hshape H. induction H as [|w r ws rs (s & _ & ->) _ IH].
  - constructor.
  - constructor; [apply run_result_served; exact Hshape | exact IH].
Qed.

(** C8.  A session on a fresh server, whatever the user does.  If the
    artifact is missing, or is a file that does not unpickle, every run of the script ends in the exception of the load,
    nothing is ever served, the cache stays empty and the load is
    attempted again at each run.  If the artifact unpickles, the body of
    [load_pipeline] runs once, in the first run, and the object is cached;
    collecting the input and rendering never raise, so each run shows
    exactly [run_result]: it raises if and only if the form was submitted
    and the classification step raised.  When the unpickled object honours
    the classifier contract every run serves. *)
Theorem load_and_classification_failures (d : disk) (ws : list Widgets) :
  match d model_path with
  | None =>
      Forall2 (fun _ r => r = Raise FileNotFoundError) ws
        (fst (session d ws fresh_server)) /\
      snd (session d ws fresh_server)
      = {| cache := None; loads := List.length ws |}
  | Some (Unreadable e) =>
      Forall2 (fun _ r => r = Raise e) ws
        (fst (session d ws fresh_server)) /\
      snd (session d ws fresh_server)
      = {| cache := None; loads := List.length ws |}
  | Some (Pickle p) =>
      (ws <> [] ->
         snd (session d ws fresh_server)
         = {| cache := Some p; loads := 1 |}) /\
      Forall2
        (fun w r =>
           exists s,
             fst (water_quality_form w fresh_server) = Ok s /\
             r = (if submitted w then
                    match classify p s with
                    | Ok (prediction, confidence) =>
                        Ok (Some (render s prediction confidence))
                    | Raise e => Raise e
                    end
                  else Ok None))
        ws (fst (session d ws fresh_server)) /\
      (well_shaped p ->
         Forall2 served ws (fst (session d ws fresh_server)))
  end.
Proof.
  destruct (d model_path) as [[e|p]|] eqn:Hd.
  - assert (Hl : joblib_load d model_path = Raise e).
    { unfold joblib_load. rewrite Hd. reflexivity. }
    destruct (session_load_fails d e ws fresh_server eq_refl Hl)
      as (H1 & H2).
    split; [exact H1|]. rewrite H2. simpl. f_equal. lia.
  - assert (Hl : joblib_load d model_path = Ok p).
    { unfold joblib_load. rewrite Hd. reflexivity. }
    destruct (session_loaded d p ws Hl) as (Hshows & Hsv).
    split; [exact Hsv|]. split.
    + clear Hsv. induction Hshows as [|w r ws' rs (s & Hs & ->) _ IH].
      * constructor.
      * constructor; [|exact IH]. exists s. split; [exact Hs|].
        unfold run_result. destruct (submitted w); [|reflexivity].
        destruct (classify p s) as [[b c]|e]; reflexivity.
    + intro Hshape. apply (shows_served p); assumption.
  - assert (Hl : joblib_load d model_path = Raise FileNotFoundError).
    { unfold joblib_load. rewrite Hd. reflexivity. }
    destruct (session_load_fails d FileNotFoundError ws fresh_server
                eq_refl Hl) as (H1 & H2).
    split; [exact H1|]. rewrite H2. simpl. f_equal. lia.
Qed.

Lemma load_and_classification_failures_witness :
  let d := disk_with (Some (Pickle (constant_pipeline true [0.1; 0.9]))) in
  let ws := [untouched true; untouched false; untouched true] in
  Forall2 served ws (fst (session d ws fresh_server)) /\
  snd (session d ws fresh_server)
  = {| cache := Some (constant_pipeline true [0.1; 0.9]); loads := 1 |}.
Proof.
  cbv zeta.
  destruct (load_and_classification_failures (disk_with (Some (Pickle (constant_pipeline true [0.1; 0.9]))))
              [untouched true; untouched false; untouched true])
    as (Hsv & _ & Hserved).
  split.
  - apply Hserved. apply constant_pipeline_well_shaped. discriminate.
  - apply Hsv. discriminate.
Defined.

(** C8, as stated, fails: an artifact that unpickles to an object that is
    no classifier loads without error and is cached, and the submitted run
    then raises in the classification step, not at load time. *)
Lemma loaded_artifact_fails_at_classification :
  joblib_load (disk_with (Some (Pickle not_a_pipeline))) model_path
  = Ok not_a_pipeline /\
  script (disk_with (Some (Pickle not_a_pipeline)))
    (untouched true) fresh_server
  = (Raise AttributeError, {| cache := Some not_a_pipeline; loads := 1 |}) /\
  script (disk_with (Some (Pickle not_a_pipeline)))
    (untouched true) {| cache := Some not_a_pipeline; loads := 1 |}
  = (Raise AttributeError, {| cache := Some not_a_pipeline; loads := 1 |}).
Proof. split; [|split]; reflexivity. Qed.

(** With the artifact missing, or unreadable, no run serves anything. *)
Example missing_artifact_session :
  fst (session (disk_with None)
         [untouched true; untouched true] fresh_server)
  = [Raise FileNotFoundError; Raise FileNotFoundError].
Proof. reflexivity. Qed.

Example corrupt_artifact_session :
  session (disk_with (Some (Unreadable EOFError)))
    [untouched false; untouched true] fresh_server
  = ([Raise EOFError; Raise EOFError], {| cache := None; loads := 2 |}).
Proof. reflexivity. Qed.

(** A pipeline whose probability row is empty loads, and the submitted run
    raises the ValueError of [max]. *)
Example empty_row_run :
  fst (script (disk_with (Some (Pickle (constant_pipeline true []))))
         (untouched true) fresh_server)
  = Raise ValueError.
Proof. reflexivity. Qed.

(** A submitted default form on a stub classifier: safe, 90.0 percent. *)
Example default_form_run :
  exists pg,
    fst (script (disk_with (Some (Pickle (constant_pipeline true [0.1; 0.9]))))
           (untouched true) fresh_server) = Ok (Some pg) /\
    headline (verdict pg) = "✅ Safe for Consumption" /\
    shown_confidence (verdict pg) = 900 # 10 /\
    col_Status (eval_df pg)
      = ["✅ Optimal"; "✅ Normal"; "✅ Clear"; "✅ Healthy"; "✅ Normal"].
Proof.
  eexists. split; [vm_compute; reflexivity|]. repeat split.
Qed.

(** The format [.1f] on two values: 68.75 prints as 68.8 and 99.96 as
    100.0. *)
Example format_1f_examples :
  format_1f 68.75 = 688 # 10 /\ format_1f 99.96 = 1000 # 10.
Proof. split; reflexivity. Qed.

(** Two whole runs on the same widgets with different models show the
    same two columns. *)
Lemma script_columns_ignore_model (d1 d2 : disk)
  (w : Widgets) (sv1 sv2 : Server) (pg1 pg2 : Page) :
  fst (script d1 w sv1) = Ok (Some pg1) ->
  fst (script d2 w sv2) = Ok (Some pg2) ->
  col_Status (eval_df pg1) = col_Status (eval_df pg2) /\
  col_Health_Impact (eval_df pg1) = col_Health_Impact (eval_df pg2).
Proof.
  assert (Hrun : forall d sv pg, fst (script d w sv) = Ok (Some pg) ->
            exists s sv',
              water_quality_form w sv' = (Ok s, sv') /\
              eval_df pg = param_eval s).
  { intros d sv pg. unfold script, bind at 1.
    destruct (load_pipeline d sv) as [[p|e] sv']; simpl; [|discriminate].
    unfold bind at 1.
    destruct (water_quality_form_total w sv') as (s & Hs & _). rewrite Hs.
    destruct (submitted w); [|simpl; discriminate].
    unfold bind, lift, ret. destruct (classify p s) as [r|e]; simpl;
      [|discriminate].
    intro H. injection H as <-. exists s, sv'. split; [exact Hs|reflexivity]. }
  intros H1 H2.
  destruct (Hrun d1 sv1 pg1 H1) as (s1 & sv1' & Hs1 & ->).
  destruct (Hrun d2 sv2 pg2 H2) as (s2 & sv2' & Hs2 & ->).
  rewrite (form_sample_unique w sv1' sv2' s1 s2 Hs1 Hs2).
  split; reflexivity.
Qed.

(** * Further properties of the rendered page *)

(** ** Status against health impact *)

Lemma non_ph_pairs (s : WaterSample) :
  ((status_temperature (temperature s) = "✅ Normal" /\
    impact_temperature (temperature s) = "No direct impact") \/
   (status_temperature (temperature s) = "⚠️ Elevated" /\
    impact_temperature (temperature s) = "Affects taste") \/
   (status_temperature (temperature s) = "❌ Extreme" /\
    impact_temperature (temperature s) = "Risk of scalding")) /\
  ((status_turbidity (turbidity s) = "✅ Clear" /\
    impact_turbidity (turbidity s) = "Clear and safe") \/
   (status_turbidity (turbidity s) = "⚠️ Cloudy" /\
    impact_turbidity (turbidity s) = "May harbor pathogens") \/
   (status_turbidity (turbidity s) = "❌ Very Turbid" /\
    impact_turbidity (turbidity s) = "High pathogen risk")) /\
  ((status_dissolved_oxygen (dissolved_oxygen s) = "✅ Healthy" /\
    impact_dissolved_oxygen (dissolved_oxygen s) = "Supports aquatic life") \/
   (status_dissolved_oxygen (dissolved_oxygen s) = "⚠️ Low" /\
    impact_dissolved_oxygen (dissolved_oxygen s) = "Stressful for organisms") \/
   (status_dissolved_oxygen (dissolved_oxygen s) = "❌ Hypoxic" /\
    impact_dissolved_oxygen (dissolved_oxygen s) = "Dangerously low oxygen")) /\
  ((status_conductivity (conductivity s) = "✅ Normal" /\
    impact_conductivity (conductivity s) = "Normal mineral content") \/
   (status_conductivity (conductivity s) = "⚠️ High" /\
    impact_conductivity (conductivity s) = "Elevated minerals") \/
   (status_conductivity (conductivity s) = "❌ Very High" /\
    impact_conductivity (conductivity s) = "Very high contamination risk")).
Proof.
  unfold status_temperature, impact_temperature, status_turbidity,
    impact_turbidity, status_dissolved_oxygen, impact_dissolved_oxygen,
    status_conductivity, impact_conductivity.
  split; [|split; [|split]].
  - destruct (Qlt_bool (temperature s) 30); [tauto|].
    destruct (Qlt_bool (temperature s) 40); tauto.
  - destruct (Qlt_bool (turbidity s) 5); [tauto|].
    destruct (Qlt_bool (turbidity s) 20); tauto.
  - destruct (Qle_bool 6 (dissolved_oxygen s)); [tauto|].
    destruct (Qle_bool 3 (dissolved_oxygen s)); tauto.
  - destruct (conductivity s <? 1000)%Z; [tauto|].
    destruct (conductivity s <? 1500)%Z; tauto.
Qed.

(** X1.  In the rows of temperature, turbidity, dissolved oxygen and
    conductivity the status and the health impact always come from the
    same rung of the ladder: the only pairs a rendered row can show are
    optimal with optimal, caution with caution, dangerous with dangerous. *)
Theorem non_ph_status_matches_impact (s : WaterSample) (prediction : bool)
  (confidence : Q) :
  let pg := render s prediction confidence in
  In (status_of pg "Temperature", impact_of pg "Temperature")
     [(Some "✅ Normal", Some "No direct impact");
      (Some "⚠️ Elevated", Some "Affects taste");
      (Some "❌ Extreme", Some "Risk of scalding")] /\
  In (status_of pg "Turbidity", impact_of pg "Turbidity")
     [(Some "✅ Clear", Some "Clear and safe");
      (Some "⚠️ Cloudy", Some "May harbor pathogens");
      (Some "❌ Very Turbid", Some "High pathogen risk")] /\
  In (status_of pg "Dissolved Oxygen", impact_of pg "Dissolved Oxygen")
     [(Some "✅ Healthy", Some "Supports aquatic life");
      (Some "⚠️ Low", Some "Stressful for organisms");
      (Some "❌ Hypoxic", Some "Dangerously low oxygen")] /\
  In (status_of pg "Conductivity", impact_of pg "Conductivity")
     [(Some "✅ Normal", Some "Normal mineral content");
      (Some "⚠️ High", Some "Elevated minerals");
      (Some "❌ Very High", Some "Very high contamination risk")].
Proof.
  cbv zeta.
  destruct (rendered_rows s prediction confidence)
    as [(_ & St & Su & So & Sc) (_ & It & Iu & Io & Ic)].
  rewrite St, Su, So, Sc, It, Iu, Io, Ic.
  destruct (non_ph_pairs s) as (Ht & Hu & Ho & Hc).
  split; [|split; [|split]].
  - destruct Ht as [[-> ->]|[[-> ->]|[-> ->]]]; simpl; tauto.
  - destruct Hu as [[-> ->]|[[-> ->]|[-> ->]]]; simpl; tauto.
  - destruct Ho as [[-> ->]|[[-> ->]|[-> ->]]]; simpl; tauto.
  - destruct Hc as [[-> ->]|[[-> ->]|[-> ->]]]; simpl; tauto.
Qed.

(** X2.  In the pH row a caution status stands next to the impact 'Harmful to
    health' exactly when the pH is in [4.5, 5.5) or above 9.5.  Everywhere
    else the two columns agree: an optimal status goes with 'Ideal for
    drinking' and conversely, and a dangerous status always goes with
    'Harmful to health'. *)
Theorem ph_status_impact_mismatch (s : WaterSample) (prediction : bool)
  (confidence : Q) :
  let pg := render s prediction confidence in
  (tier_of_row pg "pH" = Some Caution /\
   impact_of pg "pH" = Some "Harmful to health"
   <-> 4.5 <= ph s < 5.5 \/ 9.5 < ph s) /\
  (tier_of_row pg "pH" = Some Optimal
   <-> impact_of pg "pH" = Some "Ideal for drinking") /\
  (tier_of_row pg "pH" = Some Dangerous ->
   impact_of pg "pH" = Some "Harmful to health") /\
  (impact_of pg "pH" = Some "May cause irritation" ->
   tier_of_row pg "pH" = Some Caution).
Proof.
  cbv zeta.
  destruct (rendered_rows s prediction confidence) as [_ (Hi & _)].
  destruct (tier_of_rendered s prediction confidence) as (Ht & _).
  rewrite Hi, Ht.
  destruct (tier_ph_bands (ph s)) as (To & Tc & Td).
  destruct (impact_ph_bands (ph s)) as (Io & Ic & Ih).
  assert (Some_inj : forall a b : string, Some a = Some b <-> a = b).
  { intros a b. split; congruence. }
  rewrite !Some_inj.
  rewrite To, Tc, Td, Io, Ic, Ih.
  split; [|split; [|split]].
  - split.
    + intros [[H|H] [H'|H']]; lra.
    + intros [H|H]; split; try (left; lra); right; lra.
  - tauto.
  - intro H. left. lra.
  - intros [H|H]; [right|left]; lra.
Qed.

Lemma ph_status_impact_mismatch_witness :
  let pg := render (mkSample 12 22 0.01 8 350) true 99 in
  tier_of_row pg "pH" = Some Caution /\
  impact_of pg "pH" = Some "Harmful to health".
Proof.
  cbv zeta.
  apply (ph_status_impact_mismatch (mkSample 12 22 0.01 8 350) true 99).
  right. simpl. lra.
Defined.

(** ** The summary metrics against the table *)

Lemma rendered_metrics (s : WaterSample) (prediction : bool) (confidence : Q) :
  let pg := render s prediction confidence in
  let ph_ok := Qle_bool 6.5 (ph s) && Qle_bool (ph s) 8.5 in
  let do_ok := Qle_bool 6 (dissolved_oxygen s) in
  let cond_ok := (conductivity s <? 1000)%Z in
  metric_of pg "pH Level"
    = Some {| label := "pH Level"; shown := Bare (ph s);
              delta := if ph_ok then "Optimal" else "Caution";
              delta_color := if ph_ok then "normal" else "off" |} /\
  metric_of pg "Dissolved Oxygen"
    = Some {| label := "Dissolved Oxygen";
              shown := FloatUnit (dissolved_oxygen s) " mg/L";
              delta := if do_ok then "Healthy" else "Low";
              delta_color := if do_ok then "normal" else "off" |} /\
  metric_of pg "Conductivity"
    = Some {| label := "Conductivity";
              shown := IntUnit (conductivity s) " µS/cm";
              delta := if cond_ok then "Normal" else "High";
              delta_color := if cond_ok then "normal" else "off" |}.
Proof. cbv zeta. split; [|split]; reflexivity. Qed.

(** X3.  Each of the three summary metrics is in its good state ('Optimal',
    'Healthy', 'Normal', drawn in the normal colour) exactly when the
    status of the same parameter in the table is of the optimal tier, and
    otherwise shows its other label ('Caution', 'Low', 'High') with the
    colour off.  The metrics have two states only: a pH below 4.5, whose
    table status is dangerous, is a mere 'Caution' in the metric. *)
Theorem metrics_agree_with_table (s : WaterSample) (prediction : bool)
  (confidence : Q) :
  let pg := render s prediction confidence in
  exists m_ph m_do m_cond : Metric,
    metric_of pg "pH Level" = Some m_ph /\
    metric_of pg "Dissolved Oxygen" = Some m_do /\
    metric_of pg "Conductivity" = Some m_cond /\
    (tier_of_row pg "pH" = Some Optimal ->
       delta m_ph = "Optimal" /\ delta_color m_ph = "normal") /\
    (tier_of_row pg "pH" <> Some Optimal ->
       delta m_ph = "Caution" /\ delta_color m_ph = "off") /\
    (tier_of_row pg "Dissolved Oxygen" = Some Optimal ->
       delta m_do = "Healthy" /\ delta_color m_do = "normal") /\
    (tier_of_row pg "Dissolved Oxygen" <> Some Optimal ->
       delta m_do = "Low" /\ delta_color m_do = "off") /\
    (tier_of_row pg "Conductivity" = Some Optimal ->
       delta m_cond = "Normal" /\ delta_color m_cond = "normal") /\
    (tier_of_row pg "Conductivity" <> Some Optimal ->
       delta m_cond = "High" /\ delta_color m_cond = "off") /\
    (ph s < 4.5 ->
       tier_of_row pg "pH" = Some Dangerous /\ delta m_ph = "Caution").
Proof.
  cbv zeta.
  destruct (rendered_metrics s prediction confidence) as (Mp & Mo & Mc).
  cbv zeta in Mp, Mo, Mc.
  destruct (tier_of_rendered s prediction confidence)
    as (Tp & _ & _ & To & Tc).
  do 3 eexists.
  split; [exact Mp|]. split; [exact Mo|]. split; [exact Mc|].
  rewrite Tp, To, Tc. cbn [delta delta_color].
  destruct (tier_ph_bands (ph s)) as (Po & _ & Pd).
  destruct (tier_dissolved_oxygen_bands (dissolved_oxygen s)) as (Oo & _).
  destruct (tier_conductivity_bands (conductivity s)) as (Co & _).
  rewrite Po, Oo, Co, Pd.
  split; [|split; [|split; [|split; [|split; [|split]]]]].
  - intros [H1 H2]. apply Qle_bool_iff in H1, H2. rewrite H1, H2. auto.
  - intro H.
    destruct (Qle_bool 6.5 (ph s)) eqn:E1;
      destruct (Qle_bool (ph s) 8.5) eqn:E2; simpl; auto.
    apply Qle_bool_iff in E1, E2. tauto.
  - intro H. apply Qle_bool_iff in H. rewrite H. auto.
  - intro H. destruct (Qle_bool 6 (dissolved_oxygen s)) eqn:E; auto.
    apply Qle_bool_iff in E. tauto.
  - intro H. apply Z.ltb_lt in H. rewrite H. auto.
  - intro H. destruct (Z.ltb_spec (conductivity s) 1000); auto. tauto.
  - intro H. split; [exact H|].
    destruct (Qle_bool 6.5 (ph s)) eqn:E1; simpl; auto.
    apply Qle_bool_iff in E1. lra.
Qed.

Lemma metrics_agree_with_table_witness :
  exists m_ph : Metric,
    metric_of (render (mkSample 4 22 0.01 8 350) true 99) "pH Level"
      = Some m_ph /\
    delta m_ph = "Caution" /\
    tier_of_row (render (mkSample 4 22 0.01 8 350) true 99) "pH"
      = Some Dangerous.
Proof.
  destruct (metrics_agree_with_table (mkSample 4 22 0.01 8 350) true 99)
    as (m_ph & m_do & m_cond & Hm & _ & _ & _ & _ & _ & _ & _ & _ & Hlow).
  exists m_ph. split; [exact Hm|].
  assert (H : ph (mkSample 4 22 0.01 8 350) < 4.5) by (simpl; lra).
  destruct (Hlow H) as [Ht Hd]. split; [exact Hd | exact Ht].
Defined.

(** ** What the form can put on a page *)

(** A page is served only for a submitted form, and is the rendering of
    the sample the form collected. *)
Lemma script_served_sample (d : disk) (w : Widgets)
  (sv : Server) (pg : Page) :
  fst (script d w sv) = Ok (Some pg) ->
  exists (p : Pipeline) (s : WaterSample) (sv' : Server) (r : bool * Q),
    fst (load_pipeline d sv) = Ok p /\
    water_quality_form w sv' = (Ok s, sv') /\
    submitted w = true /\
    classify p s = Ok r /\
    pg = render s (fst r) (snd r).
Proof.
  unfold script, bind at 1.
  destruct (load_pipeline d sv) as [[p|e] sv']; simpl; [|discriminate].
  unfold bind at 1.
  destruct (water_quality_form_total w sv') as (s & Hs & _). rewrite Hs.
  destruct (submitted w); [|simpl; discriminate].
  unfold bind, lift, ret. destruct (classify p s) as [r|e] eqn:Hc; simpl;
    [|discriminate].
  intro H. injection H as <-. exists p, s, sv', r. auto.
Qed.

Lemma served_sample_bounds (d : disk) (w : Widgets)
  (sv : Server) (pg : Page) :
  fst (script d w sv) = Ok (Some pg) ->
  exists (s : WaterSample) (b : bool) (c : Q),
    pg = render s b c /\
    0 <= ph s <= 14 /\ 0 <= temperature s <= 50 /\ 0 <= turbidity s <= 3 /\
    0 <= dissolved_oxygen s <= 200 /\ (0 <= conductivity s <= 20000)%Z.
Proof.
  intro H.
  destruct (script_served_sample d w sv pg H)
    as (p & s & sv' & r & _ & Hs & _ & _ & ->).
  destruct (water_quality_form_total w sv') as (s' & Hs' & Hb).
  rewrite (form_sample_unique w sv' sv' s s' Hs Hs').
  exists s', (fst r), (snd r). split; [reflexivity | exact Hb].
Qed.

(** X4.  Whatever the user does with the sliders, the readings shown on a
    served page lie within the ranges written in the slider calls: pH in
    [0, 14], temperature in [0, 50], turbidity in [0, 3], dissolved oxygen
    in [0, 200] and conductivity in [0, 20000]. *)
Theorem served_values_in_slider_ranges (d : disk) (w : Widgets)
  (sv : Server) (pg : Page)
  (Hserved : fst (script d w sv) = Ok (Some pg)) :
  exists v_ph v_temp v_turb v_do v_cond : Q,
    value_of pg "pH" = Some v_ph /\ 0 <= v_ph <= 14 /\
    value_of pg "Temperature" = Some v_temp /\ 0 <= v_temp <= 50 /\
    value_of pg "Turbidity" = Some v_turb /\ 0 <= v_turb <= 3 /\
    value_of pg "Dissolved Oxygen" = Some v_do /\ 0 <= v_do <= 200 /\
    value_of pg "Conductivity" = Some v_cond /\ 0 <= v_cond <= 20000.
Proof.
  destruct (served_sample_bounds d w sv pg Hserved)
    as (s & b & c & -> & Hp & Ht & Hu & Ho & Hc).
  exists (ph s), (temperature s), (turbidity s), (dissolved_oxygen s),
    (inject_Z (conductivity s)).
  assert (Hc' : 0 <= inject_Z (conductivity s) <= 20000).
  { change 0 with (inject_Z 0). change 20000 with (inject_Z 20000).
    rewrite <- !Zle_Qle. exact Hc. }
  repeat (split; [first [reflexivity | tauto]|]). tauto.
Qed.

Lemma served_values_in_slider_ranges_witness :
  exists v_turb : Q,
    value_of (render (mkSample 7.0 22.0 0.01 8.0 350) true
                (b64 (0.9 * 100)))
      "Turbidity" = Some v_turb /\
    0 <= v_turb <= 3.
Proof.
  destruct (served_values_in_slider_ranges (disk_with (Some (Pickle (constant_pipeline true [0.1; 0.9]))))
              (untouched true) fresh_server
              (render (mkSample 7.0 22.0 0.01 8.0 350) true
                 (b64 (0.9 * 100))))
    as (v_ph & v_temp & v_turb & v_do & v_cond
        & _ & _ & _ & _ & Hv & Hb & _).
  - reflexivity.
  - exists v_turb. split; [exact Hv | exact Hb].
Defined.

(** X5.  The turbidity slider stops at 3.0 NTU, below the first threshold of 5:
    on every page the script serves, the turbidity row reads '✅ Clear' and
    'Clear and safe'.  The cloudy and very turbid rungs cannot be reached
    from the form. *)
Theorem served_turbidity_always_clear (d : disk) (w : Widgets)
  (sv : Server) (pg : Page)
  (Hserved : fst (script d w sv) = Ok (Some pg)) :
  status_of pg "Turbidity" = Some "✅ Clear" /\
  impact_of pg "Turbidity" = Some "Clear and safe".
Proof.
  destruct (served_sample_bounds d w sv pg Hserved)
    as (s & b & c & -> & _ & _ & Hu & _).
  destruct (rendered_rows s b c) as [(_ & _ & Su & _) (_ & _ & Iu & _)].
  rewrite Su, Iu. unfold status_turbidity, impact_turbidity.
  assert (H : Qlt_bool (turbidity s) 5 = true) by (apply Qlt_bool_iff; lra).
  rewrite H. split; reflexivity.
Qed.

Lemma served_turbidity_always_clear_witness :
  status_of (render (mkSample 7.0 22.0 3.0 8.0 350) false
               (b64 (0.75 * 100)))
    "Turbidity" = Some "✅ Clear" /\
  impact_of (render (mkSample 7.0 22.0 3.0 8.0 350) false
               (b64 (0.75 * 100)))
    "Turbidity" = Some "Clear and safe".
Proof.
  apply (served_turbidity_always_clear (disk_with (Some (Pickle (constant_pipeline false [0.75; 0.25]))))
           {| w_ph := None; w_temperature := None;
              w_turbidity := Some 400%nat;
              w_dissolved_oxygen := None; w_conductivity := None;
              submitted := true |}
           fresh_server).
  reflexivity.
Defined.

(** ** More on the confidence *)

(** X6.  For a model with two classes whose probabilities for the sample
    sum to at least 1, the confidence is never below 50: the larger
    probability is at least one half, and rounding the product with 100
    cannot take it below 50, which is a float. *)
Theorem two_class_confidence_at_least_half (pipeline : Pipeline)
  (s : WaterSample) (p0 p1 : Q)
  (Hshape : well_shaped pipeline)
  (Hrow : predict_proba pipeline [s] = Ok [[p0; p1]])
  (Hsum : 1 <= p0 + p1) :
  exists (prediction : bool) (confidence : Q),
    classify pipeline s = Ok (prediction, confidence) /\
    50 <= confidence.
Proof.
  destruct (classify_spec pipeline s Hshape)
    as (b & row & m & _ & Hrow' & Hc & _ & Hmax).
  rewrite Hrow in Hrow'. injection Hrow' as <-.
  exists b, (b64 (m * 100)). split; [exact Hc|].
  assert (H0 : p0 <= m) by (apply Hmax; simpl; auto).
  assert (H1 : p1 <= m) by (apply Hmax; simpl; auto).
  pose proof (b64_integer 50 ltac:(vm_compute; discriminate)) as F50.
  change (inject_Z 50) with 50 in F50.
  assert (L : b64 50 <= b64 (m * 100)) by (apply b64_monotone; lra).
  lra.
Qed.

Lemma two_class_confidence_at_least_half_witness :
  exists confidence : Q,
    classify (constant_pipeline false [0.5; 0.5])
      (mkSample 7 22 0.01 8 350)
      = Ok (false, confidence) /\
    50 <= confidence.
Proof.
  destruct (two_class_confidence_at_least_half (constant_pipeline false [0.5; 0.5])
              (mkSample 7 22 0.01 8 350) 0.5 0.5)
    as (b & c & Hc & H50).
  - apply constant_pipeline_well_shaped. discriminate.
  - reflexivity.
  - lra.
  - assert (Hb : b = false).
    { unfold classify in Hc. simpl in Hc. congruence. }
    subst b. exists c. split; [exact Hc | exact H50].
Defined.

Ltac failure_case :=
  repeat match goal with
  | H : _ /\ _ |- _ => destruct H
  | H : _ \/ _ |- _ => destruct H
  | H : exists _, _ |- _ => destruct H
  end;
  try discriminate; try congruence; auto.

(** X7.  The classification step passes on what the pipeline raises and
    adds two failures of its own.  It raises [e] exactly in these cases,
    tried in this order: [predict] raises [e]; [predict] returns no label
    and [e] is IndexError; [predict_proba] raises [e]; [predict_proba]
    returns no row and [e] is IndexError; the first probability row is
    empty and [e] is ValueError.  With a label and a non-empty first row it
    returns the first label and the float product of 100 and the maximum
    of the first row; further labels and rows are ignored. *)
Theorem classify_failures (pipeline : Pipeline)
  (s : WaterSample) :
  (forall e : exn,
     classify pipeline s = Raise e <->
     predict pipeline [s] = Raise e \/
     (predict pipeline [s] = Ok [] /\ e = IndexError) \/
     (exists b bs,
        predict pipeline [s] = Ok (b :: bs) /\
        (predict_proba pipeline [s] = Raise e \/
         (predict_proba pipeline [s] = Ok [] /\ e = IndexError) \/
         (exists rest,
            predict_proba pipeline [s] = Ok ([] :: rest) /\
            e = ValueError)))) /\
  (forall b bs row rows,
     predict pipeline [s] = Ok (b :: bs) ->
     predict_proba pipeline [s] = Ok (row :: rows) -> row <> [] ->
     exists m,
       py_max row = Ok m /\ In m row /\ (forall q, In q row -> q <= m) /\
       classify pipeline s = Ok (b, b64 (m * 100))).
Proof.
  unfold classify.
  destruct (predict pipeline [s]) as [[|b bs]|e1];
    [| destruct (predict_proba pipeline [s]) as [[|[|x row] rows]|e2] |];
    cbn [and_then index0 py_max]; split;
    try (intros e; split; intro H; failure_case; fail);
    try (intros; discriminate).
  - intros e. split; intro H; [injection H as <-; auto | failure_case].
  - intros e. split; intro H.
    + injection H as <-. right. right. exists b, bs. auto.
    + failure_case.
  - intros e. split; intro H.
    + injection H as <-. right. right. exists b, bs.
      split; [reflexivity|]. right. right. exists rows. auto.
    + failure_case.
  - intros b' bs' row' rows' Hb Hr Hne.
    injection Hr as <- <-. congruence.
  - intros b' bs' row' rows' Hb Hr Hne.
    injection Hb as <- <-. injection Hr as <- <-.
    destruct (py_max_is_maximum (x :: row) Hne) as (m & Hm & Hin & Hmax).
    exists m. rewrite Hm. cbn [py_max] in Hm. injection Hm as <-.
    repeat split; auto.
  - intros e. split; intro H.
    + injection H as <-. right. right. exists b, bs. auto.
    + failure_case.
  - intros e. split; intro H; [injection H as <-; auto | failure_case].
Qed.

Lemma classify_failures_witness :
  classify {| predict := fun _ => Ok [true];
       predict_proba := fun _ => Raise (OtherError "NotFittedError") |}
    (mkSample 7 22 0.01 8 350)
  = Raise (OtherError "NotFittedError").
Proof.
  apply (classify_failures {| predict := fun _ => Ok [true];
              predict_proba := fun _ => Raise (OtherError "NotFittedError") |}
           (mkSample 7 22 0.01 8 350)).
  right. right. exists true, []. split; [reflexivity|]. left. reflexivity.
Defined.

(** ** Runs of the script *)

(** X8.  A run in which the form was not submitted is decided by the model load
    alone: it raises what the load raises, and otherwise shows the form and
    nothing else.  The classifier is not consulted, so even a pipeline that
    breaks its contract does no harm here. *)
Theorem unsubmitted_run (d : disk) (w : Widgets) (sv : Server)
  (Hsub : submitted w = false) :
  fst (script d w sv)
  = match fst (load_pipeline d sv) with
    | Ok _ => Ok None
    | Raise e => Raise e
    end.
Proof.
  unfold script, bind at 1.
  destruct (load_pipeline d sv) as [[p|e] sv']; simpl; [|reflexivity].
  unfold bind at 1.
  destruct (water_quality_form_total w sv') as (s & -> & _).
  rewrite Hsub. reflexivity.
Qed.

Lemma unsubmitted_run_witness :
  fst (script (disk_with (Some (Pickle (constant_pipeline true []))))
         (untouched false) fresh_server)
  = Ok None.
Proof.
  apply (unsubmitted_run (disk_with (Some (Pickle (constant_pipeline true []))))
           (untouched false) fresh_server).
  reflexivity.
Defined.

(** X9.  Once the pipeline is in the resource cache the script no longer looks
    at the disk: two runs on the same server and widgets give the same
    result and the same server whatever the disks hold, and the load body
    does not run again. *)
Theorem cached_model_ignores_disk (d1 d2 : disk) (w : Widgets)
  (sv : Server) (p : Pipeline) (Hcache : cache sv = Some p) :
  script d1 w sv = script d2 w sv /\
  loads (snd (script d1 w sv)) = loads sv /\
  cache (snd (script d1 w sv)) = Some p.
Proof.
  assert (Hrun : forall d,
            script d w sv
            = bind (water_quality_form w)
                (fun s =>
                   if submitted w
                   then bind (lift (classify p s))
                          (fun r => ret (Some (render s (fst r) (snd r))))
                   else ret None) sv).
  { intro d. unfold script, bind at 1, load_pipeline, cache_resource.
    rewrite Hcache. reflexivity. }
  split; [rewrite (Hrun d1), (Hrun d2); reflexivity|].
  assert (Hsv : exists r, script d1 w sv = (r, sv)).
  { rewrite (Hrun d1). unfold bind at 1.
    destruct (water_quality_form_total w sv) as (s & -> & _).
    destruct (submitted w).
    - unfold bind, lift, ret. destruct (classify p s); eexists; reflexivity.
    - eexists. reflexivity. }
  destruct Hsv as (r & ->). split; [reflexivity | exact Hcache].
Qed.

Lemma cached_model_ignores_disk_witness :
  let sv := {| cache := Some (constant_pipeline true [0.3; 0.7]);
               loads := 1 |} in
  script (disk_with None) (untouched true) sv
  = script (disk_with (Some (Unreadable UnpicklingError)))
      (untouched true) sv /\
  loads (snd (script (disk_with None) (untouched true) sv))
  = loads sv /\
  cache (snd (script (disk_with None) (untouched true) sv))
  = Some (constant_pipeline true [0.3; 0.7]).
Proof.
  cbv zeta.
  apply (cached_model_ignores_disk (disk_with None)
           (disk_with (Some (Unreadable UnpicklingError)))
           (untouched true)
           {| cache := Some (constant_pipeline true [0.3; 0.7]); loads := 1 |}
           (constant_pipeline true [0.3; 0.7])).
  reflexivity.
Defined.

(** X10.  A submitted run on a loaded pipeline that honours the contract
    serves the rendering of the collected sample: the headline says safe
    exactly when the model's label for that sample is true and unsafe
    exactly when it is false, the panel shows the confidence of [classify]
    as the format [.1f] prints it, a whole number of tenths within 0.05 of
    the confidence, and the table and the metrics are those of the
    sample. *)
Theorem submitted_run_serves (d : disk) (w : Widgets)
  (sv : Server) (p : Pipeline)
  (Hload : fst (load_pipeline d sv) = Ok p)
  (Hshape : well_shaped p)
  (Hsub : submitted w = true) :
  exists (s : WaterSample) (b : bool) (c : Q) (pg : Page),
    fst (water_quality_form w sv) = Ok s /\
    classify p s = Ok (b, c) /\
    fst (script d w sv) = Ok (Some pg) /\
    (headline (verdict pg) = "✅ Safe for Consumption"
       <-> predict p [s] = Ok [true]) /\
    (headline (verdict pg) = "❌ Not Safe for Consumption"
       <-> predict p [s] = Ok [false]) /\
    shown_confidence (verdict pg) = format_1f c /\
    (exists tenths : Z, shown_confidence (verdict pg) = tenths # 10) /\
    - (1 # 20) <= shown_confidence (verdict pg) - c <= 1 # 20 /\
    eval_df pg = param_eval s /\
    metrics pg = safety_indicators s.
Proof.
  destruct (water_quality_form_total w sv) as (s & Hs & _).
  destruct (classify_spec p s Hshape) as (b & row & m & Hb & _ & Hc & _).
  exists s, b, (b64 (m * 100)), (render s b (b64 (m * 100))).
  split; [rewrite Hs; reflexivity|]. split; [exact Hc|].
  split.
  { unfold script, bind at 1.
    destruct (load_pipeline d sv) as [r sv'] eqn:Hl. simpl in Hload. subst r.
    unfold bind at 1.
    destruct (water_quality_form_total w sv') as (s' & Hs' & _).
    rewrite Hs', Hsub.
    rewrite <- (form_sample_unique w sv sv' s s' Hs Hs').
    unfold bind, lift, ret. rewrite Hc. reflexivity. }
  rewrite Hb.
  assert (Hshown : shown_confidence (verdict (render s b (b64 (m * 100))))
                   = format_1f (b64 (m * 100))).
  { destruct b; reflexivity. }
  rewrite Hshown.
  split; [destruct b; simpl; split; intros; try reflexivity; discriminate|].
  split; [destruct b; simpl; split; intros; try reflexivity; discriminate|].
  split; [reflexivity|].
  split; [eexists; reflexivity|].
  split; [apply format_1f_error|].
  split; reflexivity.
Qed.

Lemma submitted_run_serves_witness :
  exists (s : WaterSample) (c : Q) (pg : Page),
    fst (script (disk_with (Some (Pickle (constant_pipeline false [0.6; 0.4]))))
           (untouched true) fresh_server) = Ok (Some pg) /\
    headline (verdict pg) = "❌ Not Safe for Consumption" /\
    shown_confidence (verdict pg) = format_1f c /\
    eval_df pg = param_eval s.
Proof.
  destruct (submitted_run_serves (disk_with (Some (Pickle (constant_pipeline false [0.6; 0.4]))))
              (untouched true) fresh_server
              (constant_pipeline false [0.6; 0.4]))
    as (s & b & c & pg & _ & _ & Hrun & _ & Hunsafe & Hconf & _ & _
        & Htab & _).
  - reflexivity.
  - apply constant_pipeline_well_shaped. discriminate.
  - reflexivity.
  - exists s, c, pg. split; [exact Hrun|].
    split; [apply Hunsafe; reflexivity|]. split; assumption.
Defined.

(** ** The safe bounds of the ranges tab against the table *)

Lemma safe_bounds_rows (name : string) (lo hi : option Q) :
  safe_bounds name = Some (lo, hi) ->
  (name = "pH" /\ lo = Some 6.5 /\ hi = Some 8.5) \/
  (name = "Temperature" /\ lo = None /\ hi = Some 30) \/
  (name = "Turbidity" /\ lo = None /\ hi = Some 5) \/
  (name = "Dissolved Oxygen" /\ lo = Some 6 /\ hi = None) \/
  (name = "Conductivity" /\ lo = None /\ hi = Some 1000).
Proof.
  unfold safe_bounds. cbn [ranges rg_Parameter rg_Safe_Min rg_Safe_Max
                           combine lookup].
  repeat match goal with
  | |- context [String.eqb ?k name] =>
      destruct (String.eqb_spec k name) as [<-|_];
      [intro H; injection H as <- <-; tauto|]
  end.
  discriminate.
Qed.

(** X11.  The 'Safe Min' and 'Safe Max' of the ranges frame bracket the optimal
    band of the detail table, for each of the five parameters: a reading
    whose status is of the optimal tier lies within the safe bounds of its
    parameter (a missing bound does not constrain), and a reading strictly
    inside the safe bounds has an optimal status. *)
Theorem optimal_within_safe_bounds (s : WaterSample) (prediction : bool)
  (confidence : Q) (name : string) (lo hi : option Q) (v : Q)
  (Hrow : safe_bounds name = Some (lo, hi))
  (Hval : value_of (render s prediction confidence) name = Some v) :
  (tier_of_row (render s prediction confidence) name = Some Optimal ->
     at_least lo v /\ at_most hi v) /\
  (above lo v /\ below hi v ->
     tier_of_row (render s prediction confidence) name = Some Optimal).
Proof.
  destruct (tier_of_rendered s prediction confidence)
    as (Tp & Tt & Tu & To & Tc).
  destruct (safe_bounds_rows name lo hi Hrow)
    as [(-> & -> & ->)|[(-> & -> & ->)|[(-> & -> & ->)|
       [(-> & -> & ->)|(-> & -> & ->)]]]];
    cbn in Hval; injection Hval as <-;
    unfold at_least, at_most, above, below.
  - rewrite Tp. destruct (tier_ph_bands (ph s)) as (H & _).
    rewrite H. split; intros; lra.
  - rewrite Tt. destruct (tier_temperature_bands (temperature s)) as (H & _).
    rewrite H. split; [intros; split; [exact I | lra] | intros [_ ?]; lra].
  - rewrite Tu. destruct (tier_turbidity_bands (turbidity s)) as (H & _).
    rewrite H. split; [intros; split; [exact I | lra] | intros [_ ?]; lra].
  - rewrite To.
    destruct (tier_dissolved_oxygen_bands (dissolved_oxygen s)) as (H & _).
    rewrite H. split; [intros; split; [lra | exact I] | intros [? _]; lra].
  - rewrite Tc. destruct (tier_conductivity_bands (conductivity s)) as (H & _).
    rewrite H. change 1000 with (inject_Z 1000).
    rewrite <- Zle_Qle, <- Zlt_Qlt.
    split; [intros; split; [exact I | lia] | intros [_ ?]; lia].
Qed.

Lemma optimal_within_safe_bounds_witness :
  tier_of_row (render (mkSample 7 22 0.01 8 350) true 90) "Dissolved Oxygen"
  = Some Optimal.
Proof.
  apply (optimal_within_safe_bounds (mkSample 7 22 0.01 8 350) true 90
           "Dissolved Oxygen" (Some 6) None 8).
  - reflexivity.
  - reflexivity.
  - unfold above, below. split; [lra | exact I].
Defined.

(** X12.  The sliders of pH, temperature and turbidity stay inside the full
    measurement range the ranges tab charts for them: on every served page
    the reading of each of these three parameters lies between the 'Min'
    and the 'Max' of its row of the ranges frame. *)
Theorem served_values_within_charted_range (d : disk)
  (w : Widgets) (sv : Server) (pg : Page) (name : string)
  (Hserved : fst (script d w sv) = Ok (Some pg))
  (Hname : In name ["pH"; "Temperature"; "Turbidity"]) :
  exists (v : Q) (lo hi : Z),
    value_of pg name = Some v /\
    chart_range name = Some (lo, hi) /\
    inject_Z lo <= v <= inject_Z hi.
Proof.
  destruct (served_sample_bounds d w sv pg Hserved)
    as (s & b & c & -> & Hp & Ht & Hu & _).
  simpl in Hname. destruct Hname as [<-|[<-|[<-|[]]]].
  - exists (ph s), 0%Z, 14%Z. repeat split; try reflexivity;
      [change (inject_Z 0) with 0 | change (inject_Z 14) with 14]; lra.
  - exists (temperature s), 0%Z, 50%Z. repeat split; try reflexivity;
      [change (inject_Z 0) with 0 | change (inject_Z 50) with 50]; lra.
  - exists (turbidity s), 0%Z, 100%Z. repeat split; try reflexivity;
      [change (inject_Z 0) with 0 | change (inject_Z 100) with 100]; lra.
Qed.

Lemma served_values_within_charted_range_witness :
  exists (v : Q) (lo hi : Z),
    value_of (render (mkSample 7.0 22.0 0.01 8.0 350) true
                (b64 (0.9 * 100)))
      "Temperature" = Some v /\
    chart_range "Temperature" = Some (lo, hi) /\
    inject_Z lo <= v <= inject_Z hi.
Proof.
  apply (served_values_within_charted_range (disk_with (Some (Pickle (constant_pipeline true [0.1; 0.9]))))
           (untouched true) fresh_server
           (render (mkSample 7.0 22.0 0.01 8.0 350) true
              (b64 (0.9 * 100)))
           "Temperature").
  - reflexivity.
  - simpl. tauto.
Defined.
